(** * MBU_Driftsstatus_Rapporter: the operations-report robot

    A shallow embedding of [robot_framework/process.py] and
    [robot_framework/sub_processes/report_handler.py].

    - Python [str] values are byte strings holding the UTF-8 encoding of the
      source literal.
    - A [dict] is an association list in insertion order.
    - The methods of [ReportGenerator] that touch the database, the mail server
      or the console are written in a state-and-exception monad over [world].
    - The four SQL texts are given their relational meaning over the two tables
      they read. *)

From Stdlib Require Import String Ascii List ZArith Arith Bool Lia.
From Stdlib Require Import DecimalString Sorted Permutation.
Import ListNotations.
Open Scope string_scope.

(* ================================================================= *)
(** ** Strings *)

Module Str.

(** [needle in hay], Python's substring test. *)
Fixpoint contains (needle hay : string) : bool :=
  String.prefix needle hay ||
  match hay with
  | EmptyString => false
  | String _ rest => contains needle rest
  end.

(** [hay.endswith(needle)]. *)
Fixpoint endswith (hay needle : string) : bool :=
  String.eqb hay needle ||
  match hay with
  | EmptyString => false
  | String _ rest => endswith rest needle
  end.

(** [''.join(parts)]. *)
Definition join (parts : list string) : string := String.concat "" parts.

(** [s.zfill(width)] for a string of digits. *)
Definition zfill (width : nat) (s : string) : string :=
  String.concat "" (repeat "0" (width - String.length s)) ++ s.

End Str.

(* ================================================================= *)
(** ** Values and rows *)

(** A naive [datetime.datetime], as pyodbc returns for a DATETIME column. *)
Record datetime := mkDatetime {
  year : nat; month : nat; day : nat;
  hour : nat; minute : nat; second : nat; microsecond : nat
}.

Definition dt_fields (d : datetime) : list nat :=
  [year d; month d; day d; hour d; minute d; second d; microsecond d].

Fixpoint lex_ltb (a b : list nat) : bool :=
  match a, b with
  | x :: a', y :: b' => (x <? y)%nat || ((x =? y)%nat && lex_ltb a' b')
  | [], _ :: _ => true
  | _, [] => false
  end.

(** Chronological order of two timestamps. *)
Definition dt_ltb (a b : datetime) : bool := lex_ltb (dt_fields a) (dt_fields b).

(** The scalar values a cell can hold. *)
Inductive value :=
| VNone
| VStr (s : string)
| VInt (n : Z)
| VDatetime (d : datetime).

Definition nat_digits (n : nat) : string := NilZero.string_of_uint (Nat.to_uint n).

(** [str(d)] is [d.isoformat(sep=' ')]. *)
Definition datetime_str (d : datetime) : string :=
  Str.zfill 4 (nat_digits (year d)) ++ "-" ++ Str.zfill 2 (nat_digits (month d)) ++ "-"
  ++ Str.zfill 2 (nat_digits (day d)) ++ " "
  ++ Str.zfill 2 (nat_digits (hour d)) ++ ":" ++ Str.zfill 2 (nat_digits (minute d)) ++ ":"
  ++ Str.zfill 2 (nat_digits (second d))
  ++ (if (microsecond d =? 0)%nat then ""
      else "." ++ Str.zfill 6 (nat_digits (microsecond d))).

(** What [f'{value}'] puts in the string: [format(value, '')], that is
    [str(value)]. *)
Definition py_str (v : value) : string :=
  match v with
  | VNone => "None"
  | VStr s => s
  | VInt n => NilZero.string_of_int (Z.to_int n)
  | VDatetime d => datetime_str d
  end.

(** A [dict] with string keys, in insertion order. *)
Definition pydict := list (string * value).

Module Dict.

Definition keys (d : pydict) : list string := map fst d.
Definition values (d : pydict) : list value := map snd d.

(** [d[k] = v]: an existing key keeps its place and takes the new value, a
    new key goes last. *)
Fixpoint set (k : string) (v : value) (d : pydict) : pydict :=
  match d with
  | [] => [(k, v)]
  | (k', v') :: rest =>
      if String.eqb k k' then (k, v) :: rest else (k', v') :: set k v rest
  end.

(** [dict(pairs)]. *)
Definition of_pairs (pairs : list (string * value)) : pydict :=
  fold_left (fun d kv => set (fst kv) (snd kv) d) pairs [].

(** What makes an association list a dict: no key twice. *)
Definition wf (d : pydict) : Prop := NoDup (keys d).

End Dict.

(** [zip(columns, row)] stops at the shorter of the two. *)
Definition zip {A B} (xs : list A) (ys : list B) : list (A * B) := combine xs ys.

(* ================================================================= *)
(** ** [ReportGenerator.convert_to_html_table] *)

Definition no_data_placeholder : string := "<p>Ingen data tilgængelig.</p>".

Definition header_cell (header : string) : string := "<th>" ++ header ++ "</th>".
Definition data_cell (v : value) : string := "<td>" ++ py_str v ++ "</td>".
Definition body_row (row : pydict) : string :=
  "<tr>" ++ Str.join (map data_cell (Dict.values row)) ++ "</tr>".

Definition convert_to_html_table (data : list pydict) : string :=
  match data with
  | [] => no_data_placeholder
  | data0 :: _ =>
      let headers := Dict.keys data0 in
      let header_html := Str.join (map header_cell headers) in
      let rows_html := Str.join (map body_row data) in
      "<table><thead><tr>" ++ header_html ++ "</tr></thead><tbody>" ++ rows_html
      ++ "</tbody></table>"
  end.

(* ================================================================= *)
(** ** The database the queries read *)

(** A row of [[RPA].[dbo].[Triggers]]; [last_run] is NULL until the first run. *)
Record Trigger := mkTrigger {
  t_id : Z;
  t_trigger_name : string;
  t_process_name : string;
  t_last_run : option datetime;
  t_process_status : string
}.

(** A row of [[RPA].[dbo].[Scheduled_Triggers]]. *)
Record Scheduled_Trigger := mkScheduled {
  st_id : Z;
  st_next_run : option datetime
}.

(** The state of the server at the moment a statement runs: the two tables,
    the clock behind [GETDATE()], and the server's own [DATEADD(day, n, d)],
    collation order on names ([ORDER BY]) and equality of strings ([=], which
    on the server may ignore letter case and trailing blanks). *)
Record database := mkDatabase {
  Triggers : list Trigger;
  Scheduled_Triggers : list Scheduled_Trigger;
  GETDATE : datetime;
  DATEADD_day : Z -> datetime -> datetime;
  collation_leb : string -> string -> bool;
  collation_eqb : string -> string -> bool
}.

Module Sql.

(** A comparison involving NULL is UNKNOWN ([None]). *)
Definition lt (a b : option datetime) : option bool :=
  match a, b with
  | Some x, Some y => Some (dt_ltb x y)
  | _, _ => None
  end.

Definition gt (a b : option datetime) : option bool := lt b a.

Definition and (p q : option bool) : option bool :=
  match p, q with
  | Some false, _ | _, Some false => Some false
  | Some true, Some true => Some true
  | _, _ => None
  end.

(** WHERE keeps a row only when its condition is TRUE. *)
Definition holds (p : option bool) : bool :=
  match p with Some true => true | _ => false end.

(** [t JOIN st ON t.id = st.id]. *)
Definition join_on_id (ts : list Trigger) (sts : list Scheduled_Trigger)
  : list (Trigger * Scheduled_Trigger) :=
  flat_map (fun t => map (pair t) (filter (fun st => (t_id t =? st_id st)%Z) sts)) ts.

Section OrderBy.
Variable A : Type.
Variable leb : string -> string -> bool.
Variable key : A -> string.

Fixpoint insert (x : A) (l : list A) : list A :=
  match l with
  | [] => [x]
  | y :: l' => if leb (key x) (key y) then x :: y :: l' else y :: insert x l'
  end.

(** [ORDER BY key] (ascending is the default direction). *)
Definition order_by (l : list A) : list A := fold_right insert [] l.
End OrderBy.

Arguments insert {A} leb key x l.
Arguments order_by {A} leb key l.

(** A nullable DATETIME column as pyodbc hands it over. *)
Definition datetime_value (d : option datetime) : value :=
  match d with
  | Some x => VDatetime x
  | None => VNone
  end.

End Sql.

(** Type codes of [cursor.description]. *)
Inductive type_code := TStr | TDatetime.

(** What a statement gives back: [cursor.description] (name first) and the
    tuples of [cursor.fetchall()]. *)
Record result_table := mkResult {
  description : list (string * type_code);
  fetchall : list (list value)
}.

(** A statement is given by its meaning on a database state. *)
Definition query := database -> result_table.

(** WHERE clause of the missed-runs statement. *)
Definition missed_runs_where (db : database) (r : Trigger * Scheduled_Trigger) : bool :=
  Sql.holds (Sql.and (Sql.lt (t_last_run (fst r)) (st_next_run (snd r)))
                     (Sql.gt (Some (GETDATE db)) (st_next_run (snd r)))).

Definition missed_runs_select (r : Trigger * Scheduled_Trigger) : list value :=
  [VStr (t_trigger_name (fst r)); VStr (t_process_name (fst r));
   Sql.datetime_value (t_last_run (fst r)); Sql.datetime_value (st_next_run (snd r))].

(** The rows of the missed-runs statement before projection. *)
Definition missed_runs_rows (db : database) : list (Trigger * Scheduled_Trigger) :=
  Sql.order_by (collation_leb db) (fun r => t_trigger_name (fst r))
    (filter (missed_runs_where db) (Sql.join_on_id (Triggers db) (Scheduled_Triggers db))).

Definition missed_runs_query : query := fun db =>
  {| description := [("trigger_name", TStr); ("process_name", TStr);
                     ("last_run", TDatetime); ("next_run", TDatetime)];
     fetchall := map missed_runs_select (missed_runs_rows db) |}.

(** WHERE clause of the failures statement; the status is compared with the
    literal by the server's [=]. *)
Definition process_failure_where (db : database) (t : Trigger) : bool :=
  collation_eqb db (t_process_status t) "Failed"
  && Sql.holds (Sql.gt (t_last_run t) (Some (DATEADD_day db (-7) (GETDATE db)))).

Definition process_failure_query : query := fun db =>
  {| description := [("trigger_name", TStr); ("process_name", TStr);
                     ("last_run", TDatetime); ("process_status", TStr)];
     fetchall :=
       map (fun t => [VStr (t_trigger_name t); VStr (t_process_name t);
                      Sql.datetime_value (t_last_run t); VStr (t_process_status t)])
         (Sql.order_by (collation_leb db) t_trigger_name
            (filter (process_failure_where db) (Triggers db))) |}.

Definition process_status_where (r : Trigger * Scheduled_Trigger) : bool :=
  match t_last_run (fst r) with Some _ => true | None => false end.

Definition process_status_query : query := fun db =>
  {| description := [("trigger_name", TStr); ("process_status", TStr);
                     ("next_run", TDatetime); ("last_run", TDatetime)];
     fetchall :=
       map (fun r => [VStr (t_trigger_name (fst r)); VStr (t_process_status (fst r));
                      Sql.datetime_value (st_next_run (snd r));
                      Sql.datetime_value (t_last_run (fst r))])
         (Sql.order_by (collation_leb db) (fun r => t_trigger_name (fst r))
            (filter process_status_where
               (Sql.join_on_id (Triggers db) (Scheduled_Triggers db)))) |}.

Definition overdue_processes_where (db : database) (r : Trigger * Scheduled_Trigger) : bool :=
  Sql.holds (Sql.lt (st_next_run (snd r)) (Some (GETDATE db))).

Definition overdue_processes_query : query := fun db =>
  {| description := [("trigger_name", TStr); ("process_name", TStr);
                     ("next_run", TDatetime); ("last_run", TDatetime)];
     fetchall :=
       map (fun r => [VStr (t_trigger_name (fst r)); VStr (t_process_name (fst r));
                      Sql.datetime_value (st_next_run (snd r));
                      Sql.datetime_value (t_last_run (fst r))])
         (Sql.order_by (collation_leb db) (fun r => t_trigger_name (fst r))
            (filter (overdue_processes_where db)
               (Sql.join_on_id (Triggers db) (Scheduled_Triggers db)))) |}.

(* ================================================================= *)
(** ** The world outside the process, and the monad of the methods *)

(** Exceptions, by the class of failure they report.  [DatabaseError] stands
    for [pyodbc.Error], [MailTransportError] for [smtplib.SMTPException] and
    [OSError], [ConfigurationError] for [KeyError], [json.JSONDecodeError] and
    the error of a constant the orchestrator does not know.  [ValueError] is
    the interpreter's own, raised when an integer has too many digits to be
    turned into text.  [RenderError] is named by the specification of the
    report; no statement of the program raises it. *)
Inductive exn :=
| DatabaseError
| MailTransportError
| ConfigurationError
| ValueError
| RenderError.

Inductive result (A : Type) :=
| Ok (a : A)
| Raise (e : exn).

Arguments Ok {A} a.
Arguments Raise {A} e.

(** What the database server does with one connection attempt. *)
Inductive db_response :=
| ConnectFails
| ExecuteFails
| Answers (db : database).

(** What the mail server does with one session. *)
Inductive smtp_response :=
| ConnectRefused
| StarttlsRejected
| SendRejected
| Accepts.

(** [MIMEText(text, subtype)]. *)
Record mime_part := mkPart {
  part_subtype : string;
  part_text : string
}.

(** An [email.message.Message]: header fields in the order set, and the parts
    attached. *)
Record message := mkMessage {
  headers : list (string * string);
  payload : list mime_part
}.

(** What the process says to the mail server. *)
Inductive smtp_command :=
| CONNECT (host port : string)
| STARTTLS
| SEND (msg : message)
| QUIT.

Record world := mkWorld {
  server : nat -> db_response;   (* the server's answer to the n-th connection *)
  attempts : nat;                (* connections attempted so far *)
  open_connections : list nat;   (* connections opened and not closed *)
  mail_server : smtp_response;
  quit_reply : option nat;       (* the reply code to QUIT; [None]: the server hung up *)
  smtp_sessions : nat;           (* SMTP sessions opened and not closed *)
  smtp_log : list smtp_command;  (* every command tried, accepted or not *)
  outbox : list message;         (* messages the mail server has accepted *)
  stdout : list string;
  trace_log : list string
}.

Definition set_attempts (n : nat) (w : world) : world :=
  mkWorld (server w) n (open_connections w) (mail_server w) (quit_reply w)
          (smtp_sessions w) (smtp_log w) (outbox w) (stdout w) (trace_log w).
Definition set_open_connections (l : list nat) (w : world) : world :=
  mkWorld (server w) (attempts w) l (mail_server w) (quit_reply w)
          (smtp_sessions w) (smtp_log w) (outbox w) (stdout w) (trace_log w).
Definition set_smtp_sessions (n : nat) (w : world) : world :=
  mkWorld (server w) (attempts w) (open_connections w) (mail_server w) (quit_reply w)
          n (smtp_log w) (outbox w) (stdout w) (trace_log w).
Definition set_smtp_log (l : list smtp_command) (w : world) : world :=
  mkWorld (server w) (attempts w) (open_connections w) (mail_server w) (quit_reply w)
          (smtp_sessions w) l (outbox w) (stdout w) (trace_log w).
Definition set_outbox (l : list message) (w : world) : world :=
  mkWorld (server w) (attempts w) (open_connections w) (mail_server w) (quit_reply w)
          (smtp_sessions w) (smtp_log w) l (stdout w) (trace_log w).
Definition set_stdout (l : list string) (w : world) : world :=
  mkWorld (server w) (attempts w) (open_connections w) (mail_server w) (quit_reply w)
          (smtp_sessions w) (smtp_log w) (outbox w) l (trace_log w).
Definition set_trace_log (l : list string) (w : world) : world :=
  mkWorld (server w) (attempts w) (open_connections w) (mail_server w) (quit_reply w)
          (smtp_sessions w) (smtp_log w) (outbox w) (stdout w) l.

(** [tell c]: the command goes on the wire. *)
Definition tell (c : smtp_command) (w : world) : world :=
  set_smtp_log (smtp_log w ++ [c]) w.

(** A method body: it runs in a world and either returns or raises. *)
Definition M (A : Type) : Type := world -> result A * world.

Definition ret {A} (a : A) : M A := fun w => (Ok a, w).

Definition raise {A} (e : exn) : M A := fun w => (Raise e, w).

Definition bind {A B} (m : M A) (k : A -> M B) : M B :=
  fun w =>
    match m w with
    | (Ok a, w') => k a w'
    | (Raise e, w') => (Raise e, w')
    end.

Notation "x <- m ;; k" := (bind m (fun x => k))
  (at level 61, m at next level, right associativity).
Notation "m ;;; k" := (bind m (fun _ => k))
  (at level 61, right associativity).

(** [with enter as x: body]: the exit handler runs on every way out of the
    body.  An exception of the body is raised again after it, unless the exit
    handler raises one of its own, which then takes its place. *)
Definition with_ {A B} (enter : M A) (exit : A -> M unit) (body : A -> M B) : M B :=
  fun w =>
    match enter w with
    | (Raise e, w1) => (Raise e, w1)
    | (Ok a, w1) =>
        match body a w1 with
        | (Ok b, w2) =>
            match exit a w2 with
            | (Ok _, w3) => (Ok b, w3)
            | (Raise e, w3) => (Raise e, w3)
            end
        | (Raise e, w2) =>
            match exit a w2 with
            | (Ok _, w3) => (Raise e, w3)
            | (Raise e', w3) => (Raise e', w3)
            end
        end
    end.

(** *** pyodbc *)

(** [pyodbc.connect(connection_string)]. *)
Definition pyodbc_connect (connection_string : string) : M nat :=
  fun w =>
    let n := attempts w in
    let w1 := set_attempts (S n) w in
    match server w n with
    | ConnectFails => (Raise DatabaseError, w1)
    | _ => (Ok n, set_open_connections (n :: open_connections w1) w1)
    end.

(** [cursor.execute(query)] on the cursor of connection [conn]. *)
Definition cursor_execute (conn : nat) (q : query) : M result_table :=
  fun w =>
    match server w conn with
    | Answers db => (Ok (q db), w)
    | _ => (Raise DatabaseError, w)
    end.

(** [conn.close()]. *)
Definition conn_close (conn : nat) : M unit :=
  fun w => (Ok tt, set_open_connections (remove Nat.eq_dec conn (open_connections w)) w).

(** *** smtplib and the console *)

(** [smtplib.SMTP(host, port)]. *)
Definition smtplib_SMTP (host port : string) : M unit :=
  fun w =>
    let w1 := tell (CONNECT host port) w in
    match mail_server w with
    | ConnectRefused => (Raise MailTransportError, w1)
    | _ => (Ok tt, set_smtp_sessions (S (smtp_sessions w1)) w1)
    end.

(** [SMTP.__exit__]: QUIT is sent and the session closed in any case.  A
    reply other than 221 raises; a server that has hung up is passed over. *)
Definition smtp_exit (_ : unit) : M unit :=
  fun w =>
    let w1 := tell QUIT w in
    let w2 := set_smtp_sessions (pred (smtp_sessions w1)) w1 in
    match quit_reply w with
    | Some code => if (code =? 221)%nat then (Ok tt, w2) else (Raise MailTransportError, w2)
    | None => (Ok tt, w2)
    end.

Definition starttls : M unit :=
  fun w =>
    let w1 := tell STARTTLS w in
    match mail_server w with
    | StarttlsRejected => (Raise MailTransportError, w1)
    | _ => (Ok tt, w1)
    end.

Definition send_message (msg : message) : M unit :=
  fun w =>
    let w1 := tell (SEND msg) w in
    match mail_server w with
    | Accepts => (Ok tt, set_outbox (outbox w1 ++ [msg]) w1)
    | _ => (Raise MailTransportError, w1)
    end.

Definition print (line : string) : M unit :=
  fun w => (Ok tt, set_stdout (stdout w ++ [line]) w).

(** *** email.mime *)

(** [MIMEMultipart()]. *)
Definition MIMEMultipart : message :=
  {| headers := [("Content-Type", "multipart/mixed"); ("MIME-Version", "1.0")];
     payload := [] |}.

Definition MIMEText (text subtype : string) : mime_part :=
  {| part_subtype := subtype; part_text := text |}.

(** [msg[name] = val] adds a field after the ones already there. *)
Definition set_header (name val : string) (msg : message) : message :=
  {| headers := headers msg ++ [(name, val)]; payload := payload msg |}.

(** [msg.attach(part)]. *)
Definition attach (part : mime_part) (msg : message) : message :=
  {| headers := headers msg; payload := payload msg ++ [part] |}.

(** [msg[name]]: the first field of that name, [None] when there is none.
    Names are compared as written; the field names of this program differ by
    more than letter case. *)
Definition get_header (name : string) (msg : message) : option string :=
  match find (fun h => String.eqb (fst h) name) (headers msg) with
  | Some h => Some (snd h)
  | None => None
  end.

(** *** The orchestrator *)

(** What the process uses of an [OrchestratorConnection]. *)
Record OrchestratorConnection := mkOC {
  process_arguments : string;
  constants : list (string * string)
}.

Definition log_trace (oc : OrchestratorConnection) (line : string) : M unit :=
  fun w => (Ok tt, set_trace_log (trace_log w ++ [line]) w).

(** [oc.get_constant(name).value]; an unknown name raises. *)
Definition get_constant (oc : OrchestratorConnection) (name : string) : M string :=
  match find (fun c => String.eqb (fst c) name) (constants oc) with
  | Some c => ret (snd c)
  | None => raise ConfigurationError
  end.

(** [d[key]] on a dict read from JSON; a missing key raises [KeyError]. *)
Definition getitem (d : pydict) (key : string) : M value :=
  match find (fun kv => String.eqb (fst kv) key) d with
  | Some kv => ret (snd kv)
  | None => raise ConfigurationError
  end.

(* ================================================================= *)
(** ** [ReportGenerator] *)

Record email_settings_t := mkSettings {
  from_email : string;
  to_email : string;
  smtp_server : string;
  smtp_port : string
}.

Record ReportGenerator := mkReportGenerator {
  orchestrator_connection : OrchestratorConnection;
  email_settings : email_settings_t
}.

Definition get_db_connection (self : ReportGenerator) : M nat :=
  connection_string <- get_constant (orchestrator_connection self) "DbConnectionString" ;;
  conn <- pyodbc_connect connection_string ;;
  ret conn.

(** [[dict(zip(columns, row)) for row in results]]. *)
Definition rows_as_dicts (columns : list string) (results : list (list value)) : list pydict :=
  map (fun row => Dict.of_pairs (zip columns row)) results.

Definition fetch_data (self : ReportGenerator) (q : query) : M (list pydict) :=
  conn <- get_db_connection self ;;
  let cursor := conn in
  res <- cursor_execute cursor q ;;
  let columns := map fst (description res) in
  let results := fetchall res in
  conn_close conn ;;;
  let data := rows_as_dicts columns results in
  ret data.

Definition missed_runs_report (self : ReportGenerator) : M (list pydict) :=
  fetch_data self missed_runs_query.

Definition process_failure_report (self : ReportGenerator) : M (list pydict) :=
  fetch_data self process_failure_query.

Definition process_status_report (self : ReportGenerator) : M (list pydict) :=
  fetch_data self process_status_query.

Definition overdue_processes_report (self : ReportGenerator) : M (list pydict) :=
  fetch_data self overdue_processes_query.

(** [bool(x)] of a list: empty is false. *)
Definition list_bool {A} (x : list A) : bool :=
  match x with
  | [] => false
  | _ :: _ => true
  end.

(** [x or y] on lists gives [x] when it is true, else [y]. *)
Definition list_or {A} (x y : list A) : list A := if list_bool x then x else y.

Definition nl : string := String (ascii_of_nat 10) "".

Definition template_head : string :=
  String.concat nl
    ["";
     "        <html>";
     "        <head>";
     "        <style>";
     "            table, th, td {";
     "                border: 1px solid black;";
     "                border-collapse: collapse;";
     "                padding: 8px;";
     "                font-size: 14px;  /* Mindre fontstørrelse for tabeller */";
     "            }";
     "            h3 {";
     "                font-size: 16px;  /* Mindre fontstørrelse for overskrifter */";
     "            }";
     "            body {";
     "                font-size: 12px;  /* Generel fontstørrelse for hele dokumentet */";
     "            }";
     "        </style>";
     "        </head>";
     "        <body>";
     "            <h3>Manglende kørsler</h3>";
     "            "].

Definition template_after_missed : string :=
  String.concat nl
    ["";
     "        <br/><br/>";
     "            <h3>Fejlede processer (Sidste 7 Dage)</h3>";
     "            "].

Definition template_after_failures : string :=
  String.concat nl
    ["";
     "        <br/><br/>";
     "            <h3>Forsinkede processer</h3>";
     "            "].

Definition template_after_overdue : string :=
  String.concat nl
    ["";
     "        <br/><br/>";
     "            <h3>Processtatus</h3>";
     "            "].

Definition template_tail : string :=
  String.concat nl
    ["";
     "        </body>";
     "        </html>";
     "        "].

(** [Template(html_template).render(...)]: the template text with each
    [{{ name | safe }}] replaced by the value given for [name]; a template
    made this way does not escape. *)
Definition template_render
  (missed_runs_table overdue_processes_table process_failures_table process_status_table
     : string) : string :=
  template_head ++ missed_runs_table ++ template_after_missed ++ process_failures_table
  ++ template_after_failures ++ overdue_processes_table ++ template_after_overdue
  ++ process_status_table ++ template_tail.

(** The interpreter turns an integer into text only when it has at most
    4300 digits ([sys.int_info.default_max_str_digits]). *)
Definition max_str_digits : Z := 4300.

(** Whether [f'{value}'] returns: every value but an integer of more than
    [max_str_digits] digits has a text. *)
Definition has_text (v : value) : bool :=
  match v with
  | VInt n => (Z.abs n <? 10 ^ max_str_digits)%Z
  | _ => true
  end.

(** Every cell of every row has a text. *)
Definition all_have_text (data : list pydict) : bool :=
  forallb (fun row => forallb has_text (Dict.values row)) data.

(** [self.convert_to_html_table(data)] as its caller sees it.  The body has
    no [raise]; the one step that can fail on a list of dicts is the text of a
    cell, and then the call raises [ValueError].  Otherwise it returns its
    string.  Either way the world is as it was. *)
Definition convert_to_html_table_call (self : ReportGenerator) (data : list pydict)
  : M string :=
  if all_have_text data
  then ret (convert_to_html_table data)
  else raise ValueError.

Definition generate_html_report (self : ReportGenerator) : M (string * bool) :=
  missed_runs <- missed_runs_report self ;;
  overdue_processes <- overdue_processes_report self ;;
  process_failures <- process_failure_report self ;;
  process_status <- process_status_report self ;;
  let alert_flag := list_bool (list_or missed_runs overdue_processes) in
  missed_runs_table <- convert_to_html_table_call self missed_runs ;;
  overdue_processes_table <- convert_to_html_table_call self overdue_processes ;;
  process_failures_table <- convert_to_html_table_call self process_failures ;;
  process_status_table <- convert_to_html_table_call self process_status ;;
  let html_content :=
    template_render missed_runs_table overdue_processes_table process_failures_table
      process_status_table in
  ret (html_content, alert_flag).

Definition base_subject : string := "RPA - Driftsrapport".
Definition warning_suffix : string := " - ⚠️ Advarsel. Handling påkrævet ⚠️".

(** Lines 200 to 214 of [send_email]: the message built from the report and
    its alert flag. *)
Definition build_message (settings : email_settings_t) (html_content : string)
  (alert_flag : bool) : message :=
  let subject := base_subject in
  let msg := MIMEMultipart in
  let '(subject, msg) :=
    if alert_flag then
      (subject ++ warning_suffix,
       set_header "Importance" "High"
         (set_header "X-MSMail-Priority" "High" (set_header "X-Priority" "1" msg)))
    else (subject, msg) in
  let msg := set_header "From" (from_email settings) msg in
  let msg := set_header "To" (to_email settings) msg in
  let msg := set_header "Subject" subject msg in
  attach (MIMEText html_content "html") msg.

(** The argument is of any type: the docstring asks for the HTML text, the
    caller passes the pair [generate_html_report] returned.  The first
    statement binds the name [html_content] anew. *)
Definition send_email {A : Type} (self : ReportGenerator) (html_content : A) : M unit :=
  r <- generate_html_report self ;;
  let '(html_content, alert_flag) := r in
  let msg := build_message (email_settings self) html_content alert_flag in
  with_ (smtplib_SMTP (smtp_server (email_settings self)) (smtp_port (email_settings self)))
    smtp_exit
    (fun server =>
       starttls ;;;
       send_message msg ;;;
       print ("Email sent to " ++ to_email (email_settings self) ++ ".")).

(* ================================================================= *)
(** ** [process] *)

Section Process.

(** [json.loads]: the object read from a JSON text, [None] when the text is
    not JSON. *)
Variable json_loads : string -> option pydict.

(** [config.SMTP_SERVER] and [config.SMTP_PORT]. *)
Variable SMTP_SERVER : value.
Variable SMTP_PORT : value.

Definition process (oc : OrchestratorConnection) : M unit :=
  log_trace oc "Running process." ;;;
  oc_args_json <- match json_loads (process_arguments oc) with
                  | Some d => ret d
                  | None => raise ConfigurationError
                  end ;;
  fromEmail <- getitem oc_args_json "fromEmail" ;;
  toEmail <- getitem oc_args_json "toEmail" ;;
  let email_settings :=
    {| from_email := py_str fromEmail;
       to_email := py_str toEmail;
       smtp_server := py_str SMTP_SERVER;
       smtp_port := py_str SMTP_PORT |} in
  let report_generator := mkReportGenerator oc email_settings in
  html_report <- generate_html_report report_generator ;;
  send_email report_generator html_report.

End Process.

(* ================================================================= *)
(** ** Vocabulary of the statements *)

(** The rows a statement yields on a database state, as [fetch_data] hands
    them to its caller. *)
Definition fetched (q : query) (db : database) : list pydict :=
  rows_as_dicts (map fst (description (q db))) (fetchall (q db)).

(** The four result sets of one report, in the order they are queried. *)
Record ReportBundle := mkBundle {
  missed : list pydict;
  overdue : list pydict;
  failed : list pydict;
  status : list pydict
}.

(** The bundle read when the four statements see these four database states. *)
Definition bundle_of (db0 db1 db2 db3 : database) : ReportBundle :=
  {| missed := fetched missed_runs_query db0;
     overdue := fetched overdue_processes_query db1;
     failed := fetched process_failure_query db2;
     status := fetched process_status_query db3 |}.

(** The document showing a bundle. *)
Definition rendered (b : ReportBundle) : string :=
  template_render (convert_to_html_table (missed b)) (convert_to_html_table (overdue b))
    (convert_to_html_table (failed b)) (convert_to_html_table (status b)).

(** The alert flag of a bundle: [bool(missed_runs or overdue_processes)]. *)
Definition alert (b : ReportBundle) : bool := list_bool (list_or (missed b) (overdue b)).

(** The server answers the [k] connections from the [n]-th on with these
    database states. *)
Fixpoint answers_from (w : world) (n : nat) (dbs : list database) : Prop :=
  match dbs with
  | [] => True
  | db :: rest => server w n = Answers db /\ answers_from w (S n) rest
  end.

Definition is_answer (r : db_response) : bool :=
  match r with
  | Answers _ => true
  | _ => false
  end.

(** Everything of the world but the connection bookkeeping. *)
Definition same_outside_db (w w' : world) : Prop :=
  server w' = server w /\ mail_server w' = mail_server w
  /\ smtp_sessions w' = smtp_sessions w /\ outbox w' = outbox w
  /\ stdout w' = stdout w /\ trace_log w' = trace_log w /\ smtp_log w' = smtp_log w
  /\ quit_reply w' = quit_reply w.

(** Whether the exit of the SMTP session returns: QUIT answered 221, or the
    server gone. *)
Definition quit_ok (w : world) : bool :=
  match quit_reply w with
  | Some code => (code =? 221)%nat
  | None => true
  end.

(** The [with smtplib.SMTP(...)] block of [send_email]. *)
Definition submit (settings : email_settings_t) (msg : message) : M unit :=
  with_ (smtplib_SMTP (smtp_server settings) (smtp_port settings))
    smtp_exit
    (fun server =>
       starttls ;;;
       send_message msg ;;;
       print ("Email sent to " ++ to_email settings ++ ".")).

(** The orchestrator knows the connection string. *)
Definition has_connection_string (oc : OrchestratorConnection) : Prop :=
  exists c, find (fun c => String.eqb (fst c) "DbConnectionString") (constants oc) = Some c.

(** All rows have the keys of the first, in the same order. *)
Definition same_columns (data : list pydict) : bool :=
  match data with
  | [] => true
  | data0 :: rest =>
      forallb (fun row =>
                 if list_eq_dec string_dec (Dict.keys row) (Dict.keys data0)
                 then true else false) rest
  end.

(** The name a result tuple is ordered by: its first column. *)
Definition first_column (row : list value) : string :=
  match row with
  | VStr s :: _ => s
  | _ => ""
  end.

(* ================================================================= *)
(** ** Concrete inputs *)

Module Sample.

Definition dt (y mo d h mi : nat) : datetime := mkDatetime y mo d h mi 0 0.

(** Case-sensitive byte order, one possible collation. *)
Definition binary_leb (a b : string) : bool := String.leb a b.

(** Equality of the bytes, the [=] of a binary collation. *)
Definition binary_eqb (a b : string) : bool := String.eqb a b.

(** Calendar arithmetic is not exercised by the samples. *)
Definition dateadd_stub (_ : Z) (d : datetime) : datetime :=
  mkDatetime (year d) (month d) (day d - 7) (hour d) (minute d) (second d) (microsecond d).

Definition triggers : list Trigger :=
  [ mkTrigger 1 "T2" "P2" (Some (dt 2024 1 1 0 0)) "Done";
    mkTrigger 2 "T1" "P1" (Some (dt 2024 1 1 0 0)) "Failed";
    mkTrigger 3 "T3" "P3" None "Idle";
    mkTrigger 4 "T4" "P4" (Some (dt 2024 1 9 8 30)) "Done" ].

Definition scheduled : list Scheduled_Trigger :=
  [ mkScheduled 1 (Some (dt 2024 1 2 0 0));
    mkScheduled 2 (Some (dt 2024 1 2 0 0));
    mkScheduled 3 (Some (dt 2024 1 2 0 0));
    mkScheduled 4 (Some (dt 2024 1 20 0 0)) ].

Definition db : database :=
  mkDatabase triggers scheduled (dt 2024 1 10 12 0) dateadd_stub binary_leb binary_eqb.

(** Nothing is late and nothing failed. *)
Definition quiet_db : database :=
  mkDatabase [mkTrigger 4 "T4" "P4" (Some (dt 2024 1 9 8 30)) "Done"]
             [mkScheduled 4 (Some (dt 2024 1 20 0 0))]
             (dt 2024 1 10 12 0) dateadd_stub binary_leb binary_eqb.

Definition world0 (srv : nat -> db_response) (mail : smtp_response) : world :=
  mkWorld srv 0 [] mail (Some 221) 0 [] [] [] [].

Definition oc : OrchestratorConnection :=
  mkOC "{}" [("DbConnectionString", "Driver=SQL Server;Server=rpa")].

Definition settings : email_settings_t :=
  mkSettings "robot@example.org" "drift@example.org" "smtp.example.org" "25".

Definition generator : ReportGenerator := mkReportGenerator oc settings.

(** The row of scenario B of the specification. *)
Definition scenario_b_row : pydict :=
  [("trigger_name", VStr "T1"); ("process_name", VStr "P1");
   ("last_run", VStr "2024-01-01T00:00"); ("next_run", VStr "2024-01-02T00:00")].

(** A cell that holds markup. *)
Definition markup_row : pydict :=
  [("trigger_name", VStr "<script>alert(1)</script>"); ("process_name", VStr "P & Q")].

(** Two rows whose column sets differ. *)
Definition mixed_rows : list pydict :=
  [ [("a", VInt 1)]; [("b", VInt 2); ("c", VNone)] ].

(** The arguments of a run: every JSON text reads as this object. *)
Definition loads (_ : string) : option pydict :=
  Some [("fromEmail", VStr "robot@example.org"); ("toEmail", VStr "drift@example.org")].

(** A server that answers five statements and fails the sixth. *)
Definition sixth_fails (n : nat) : db_response :=
  if (n =? 5)%nat then ExecuteFails else Answers db.

End Sample.

(** Distinctness of a literal list of keys. *)
Ltac literal_nodup :=
  repeat (constructor; [simpl; intuition discriminate|]); constructor.

(* ================================================================= *)
(** ** Further vocabulary and inputs *)

(** [d.get(key)]: the value under [key], [None] when the key is absent. *)
Definition dict_get (d : pydict) (key : string) : option value :=
  match find (fun kv => String.eqb (fst kv) key) d with
  | Some kv => Some (snd kv)
  | None => None
  end.

(** Every connection still open was made by an earlier attempt. *)
Definition connections_known (w : world) : Prop :=
  forall n, In n (open_connections w) -> n < attempts w.

(** The first statement that fails is the [i]-th from [n] on. *)
Definition first_failure (w : world) (n i : nat) : Prop :=
  is_answer (server w (n + i)) = false
  /\ forall j, j < i -> is_answer (server w (n + j)) = true.

(** The settings [process] builds from its arguments and the configuration. *)
Definition settings_of (fromEmail toEmail SMTP_SERVER SMTP_PORT : value)
  : email_settings_t :=
  mkSettings (py_str fromEmail) (py_str toEmail) (py_str SMTP_SERVER) (py_str SMTP_PORT).

(** The world one [fetch_data] leaves behind when the connection string is
    known, and whether the statement was answered. *)
Definition fetch_world (w : world) : world * bool :=
  let n := attempts w in
  let w1 := set_attempts (S n) w in
  match server w n with
  | Answers _ =>
      (set_open_connections (remove Nat.eq_dec n (n :: open_connections w)) w1, true)
  | ExecuteFails => (set_open_connections (n :: open_connections w) w1, false)
  | ConnectFails => (w1, false)
  end.

(** The world [k] fetches in a row leave behind, the row ending at the first
    statement that fails. *)
Fixpoint fetches_world (k : nat) (w : world) : world :=
  match k with
  | 0 => w
  | S k' => if snd (fetch_world w) then fetches_world k' (fst (fetch_world w))
            else fst (fetch_world w)
  end.

Module More.

(** An orchestrator that has no constants. *)
Definition bare_oc : OrchestratorConnection := mkOC "{}" [].

(** Arguments that lack the recipient. *)
Definition loads_no_recipient (_ : string) : option pydict :=
  Some [("fromEmail", VStr "robot@example.org")].

(** A text that is not JSON. *)
Definition loads_nothing (_ : string) : option pydict := None.

(** A server that answers two statements and refuses the third connection. *)
Definition third_refused (n : nat) : db_response :=
  if (n =? 2)%nat then ConnectFails else Answers Sample.db.

(** A second row that lacks a column of the first. *)
Definition ragged_rows : list pydict :=
  [ [("x", VStr "1"); ("y", VNone)]; [("x", VStr "2")] ].

(** A mail server that takes the message and then answers QUIT with 421. *)
Definition quit_refused_world (srv : nat -> db_response) : world :=
  mkWorld srv 0 [] Accepts (Some 421) 0 [] [] [] [].

(** A status written in capitals, and a server whose [=] ignores case for it. *)
Definition capitals_eqb (a b : string) : bool :=
  String.eqb a b || (String.eqb a "FAILED" && String.eqb b "Failed").

Definition capitals_db : database :=
  mkDatabase
    [ mkTrigger 9 "Loud" "P9" (Some (Sample.dt 2024 1 9 0 0)) "FAILED" ]
    []
    (Sample.dt 2024 1 10 12 0) Sample.dateadd_stub Sample.binary_leb capitals_eqb.

(** A failed trigger that has no schedule, and a late one that never ran. *)
Definition odd_db : database :=
  mkDatabase
    [ mkTrigger 7 "Lone" "P7" (Some (Sample.dt 2024 1 9 0 0)) "Failed";
      mkTrigger 8 "Never" "P8" None "Idle" ]
    [ mkScheduled 8 (Some (Sample.dt 2024 1 5 0 0)) ]
    (Sample.dt 2024 1 10 12 0) Sample.dateadd_stub Sample.binary_leb Sample.binary_eqb.

(** A world in which one connection (number 0) was left open earlier. *)
Definition leaky_world (srv : nat -> db_response) (mail : smtp_response) : world :=
  mkWorld srv 1 [0] mail (Some 221) 0 [] [] [] [].

End More.

(* ================================================================= *)
(** * Properties *)

(** ** Strings *)

Lemma append_empty_r (s : string) : s ++ "" = s.
Proof. induction s as [|c s IH]; simpl; [reflexivity | now rewrite IH]. Qed.

Lemma append_assoc (a b c : string) : (a ++ b) ++ c = a ++ (b ++ c).
Proof. induction a as [|x a IH]; simpl; [reflexivity | now rewrite IH]. Qed.

Lemma join_cons (x : string) (xs : list string) : Str.join (x :: xs) = x ++ Str.join xs.
Proof.
  unfold Str.join. destruct xs as [|y ys]; simpl.
  - now rewrite append_empty_r.
  - reflexivity.
Qed.

Lemma prefix_append (s t : string) : String.prefix s (s ++ t) = true.
Proof.
  induction s as [|c s IH]; simpl.
  - now destruct t.
  - destruct (ascii_dec c c) as [_|n]; [exact IH | now elim n].
Qed.

Lemma prefix_append_weaken (n a b : string) :
  String.prefix n a = true -> String.prefix n (a ++ b) = true.
Proof.
  revert a. induction n as [|c n IH]; intros a H.
  - now destruct (a ++ b).
  - destruct a as [|x a]; simpl in *; [discriminate|].
    destruct (ascii_dec c x); [now apply IH | discriminate].
Qed.

Lemma contains_of_prefix (n h : string) :
  String.prefix n h = true -> Str.contains n h = true.
Proof. destruct h; simpl; intros ->; reflexivity. Qed.

Lemma contains_prefix (n t : string) : Str.contains n (n ++ t) = true.
Proof. apply contains_of_prefix, prefix_append. Qed.

Lemma contains_append_r (n a b : string) :
  Str.contains n b = true -> Str.contains n (a ++ b) = true.
Proof.
  intros H. induction a as [|x a IH]; simpl; [exact H|].
  rewrite IH. apply orb_true_r.
Qed.

Lemma contains_append_l (n a b : string) :
  Str.contains n a = true -> Str.contains n (a ++ b) = true.
Proof.
  induction a as [|x a IH]; simpl; intros H.
  - destruct n; [|discriminate]. destruct b; reflexivity.
  - apply orb_true_iff in H. destruct H as [H|H].
    + apply (prefix_append_weaken _ (String x a) b) in H. simpl in H. now rewrite H.
    + rewrite (IH H). apply orb_true_r.
Qed.

Lemma contains_middle (n a b : string) : Str.contains n (a ++ n ++ b) = true.
Proof. apply contains_append_r, contains_prefix. Qed.

Lemma contains_join (n : string) (parts : list string) :
  (exists p, In p parts /\ Str.contains n p = true) -> Str.contains n (Str.join parts) = true.
Proof.
  intros [p [Hin Hp]]. induction parts as [|x xs IH]; [contradiction|].
  rewrite join_cons. destruct Hin as [->|Hin].
  - now apply contains_append_l.
  - now apply contains_append_r, IH.
Qed.

Lemma length_append (a b : string) :
  String.length (a ++ b) = String.length a + String.length b.
Proof. induction a as [|x a IH]; simpl; [reflexivity | now rewrite IH]. Qed.

Lemma append_cancel_r (a b c : string) : a ++ c = b ++ c -> a = b.
Proof.
  revert b. induction a as [|x a IH]; intros [|y b] H; simpl in H.
  - reflexivity.
  - apply (f_equal String.length) in H. simpl in H. rewrite length_append in H. lia.
  - apply (f_equal String.length) in H. simpl in H. rewrite length_append in H. lia.
  - injection H as -> H. f_equal. now apply IH.
Qed.

Lemma header_cell_injective (a b : string) : header_cell a = header_cell b -> a = b.
Proof.
  unfold header_cell. simpl. intros H. injection H as H. now apply append_cancel_r in H.
Qed.

(** ** The table fragment *)

Lemma convert_to_html_table_cons (data0 : pydict) (rest : list pydict) :
  convert_to_html_table (data0 :: rest) =
  "<table><thead><tr>" ++ Str.join (map header_cell (Dict.keys data0))
  ++ "</tr></thead><tbody>" ++ Str.join (map body_row (data0 :: rest))
  ++ "</tbody></table>".
Proof. reflexivity. Qed.

Lemma contains_self (n : string) : Str.contains n n = true.
Proof. rewrite <- (append_empty_r n) at 2. apply contains_prefix. Qed.

Lemma keys_set (k : string) (v : value) (d : pydict) :
  Dict.keys (Dict.set k v d) =
  if in_dec string_dec k (Dict.keys d) then Dict.keys d else (Dict.keys d ++ [k])%list.
Proof.
  induction d as [|[k' v'] d IH]; simpl; [reflexivity|].
  destruct (String.eqb_spec k k') as [->|Hne]; simpl.
  - destruct (string_dec k' k') as [e|n]; [reflexivity | now elim n].
  - rewrite IH. destruct (string_dec k' k) as [E|n]; [now elim Hne|].
    destruct (in_dec string_dec k (Dict.keys d)); reflexivity.
Qed.

Lemma set_wf (k : string) (v : value) (d : pydict) : Dict.wf d -> Dict.wf (Dict.set k v d).
Proof.
  unfold Dict.wf. intros H. rewrite keys_set.
  destruct (in_dec string_dec k (Dict.keys d)) as [Hi|Hn]; [exact H|].
  apply NoDup_app; [exact H | repeat constructor; intros [] | ].
  intros x Hx [<-|[]]. now apply Hn.
Qed.

(** Every dict made by [dict(...)] has each key once. *)
Lemma of_pairs_wf (pairs : list (string * value)) : Dict.wf (Dict.of_pairs pairs).
Proof.
  unfold Dict.of_pairs.
  assert (G : forall d, Dict.wf d ->
                Dict.wf (fold_left (fun d kv => Dict.set (fst kv) (snd kv) d) pairs d)).
  { induction pairs as [|kv pairs IH]; intros d Hd; simpl; [exact Hd|].
    now apply IH, set_wf. }
  apply G. constructor.
Qed.

Lemma NoDup_map_injective {A B : Type} (f : A -> B) (l : list A) :
  (forall a b, f a = f b -> a = b) -> NoDup l -> NoDup (map f l).
Proof.
  intros Hinj H. induction H as [|x l Hx H IH]; simpl; constructor; [|exact IH].
  intros Hin. apply in_map_iff in Hin as [y [E Hy]].
  apply Hinj in E. subst y. contradiction.
Qed.

Lemma nth_error_body_rows (data : list pydict) (i : nat) (row : pydict) :
  nth_error data i = Some row -> nth_error (map body_row data) i = Some (body_row row).
Proof. intros H. now apply map_nth_error. Qed.

(** C3: a non-empty result set becomes a table with one header cell per key
    of the first row, in that row's key order, and one body row per entry, in
    the order of the entries, each cell holding the text of its value. *)
Theorem table_fragment_shape (data0 : pydict) (rest : list pydict) :
  Dict.wf data0 ->
  exists header_cells body_rows : list string,
    convert_to_html_table (data0 :: rest) =
      "<table><thead><tr>" ++ Str.join header_cells ++ "</tr></thead><tbody>"
      ++ Str.join body_rows ++ "</tbody></table>"
    /\ header_cells = map (fun k => "<th>" ++ k ++ "</th>") (Dict.keys data0)
    /\ length header_cells = length data0
    /\ NoDup header_cells
    /\ length body_rows = length (data0 :: rest)
    /\ forall i row,
         nth_error (data0 :: rest) i = Some row ->
         nth_error body_rows i =
           Some ("<tr>"
                 ++ Str.join (map (fun v => "<td>" ++ py_str v ++ "</td>") (Dict.values row))
                 ++ "</tr>").
Proof.
  intros Hwf.
  exists (map header_cell (Dict.keys data0)), (map body_row (data0 :: rest)).
  split; [apply convert_to_html_table_cons|].
  split; [reflexivity|].
  split; [unfold Dict.keys; now rewrite !length_map|].
  split.
  - apply NoDup_map_injective; [|exact Hwf].
    intros a b. apply header_cell_injective.
  - split; [now rewrite length_map|].
    intros i row H. now apply nth_error_body_rows.
Qed.

(** C4: the empty result set becomes the fixed placeholder paragraph, which
    holds no table element. *)
Theorem empty_table_fragment :
  convert_to_html_table [] = "<p>Ingen data tilgængelig.</p>"
  /\ Str.contains "<table" (convert_to_html_table []) = false.
Proof. split; reflexivity. Qed.

(** C7: the text of a string cell goes into the fragment as it is, markup
    characters included: nothing escapes it. *)
Theorem cell_text_is_not_escaped (data : list pydict) (row : pydict) (k s : string) :
  In row data ->
  In (k, VStr s) row ->
  Str.contains ("<td>" ++ s ++ "</td>") (convert_to_html_table data) = true.
Proof.
  intros Hrow Hcell.
  destruct data as [|data0 rest]; [contradiction|].
  rewrite convert_to_html_table_cons.
  apply contains_append_r, contains_append_r, contains_append_r, contains_append_l.
  apply contains_join. exists (body_row row). split; [now apply in_map|].
  unfold body_row. apply contains_append_r, contains_append_l, contains_join.
  exists (data_cell (VStr s)). split; [|apply contains_self].
  apply in_map. unfold Dict.values.
  change (VStr s) with (snd (k, VStr s)). now apply in_map.
Qed.

(** C10, as the program has it: a result set whose rows do not share the
    columns of row 0 causes no [RenderError].  When its cells have a text it
    is rendered like any other, silently: the header is that of row 0 and
    each body row is made of the values of its own row. *)
Theorem renderer_checks_no_shape (self : ReportGenerator) (data0 : pydict)
  (rest : list pydict) (w : world) :
  same_columns (data0 :: rest) = false ->
  fst (convert_to_html_table_call self (data0 :: rest) w) <> Raise RenderError
  /\ (all_have_text (data0 :: rest) = true ->
      convert_to_html_table_call self (data0 :: rest) w =
        (Ok ("<table><thead><tr>" ++ Str.join (map header_cell (Dict.keys data0))
             ++ "</tr></thead><tbody>" ++ Str.join (map body_row (data0 :: rest))
             ++ "</tbody></table>"), w)).
Proof.
  intros _. unfold convert_to_html_table_call. split.
  - destruct (all_have_text (data0 :: rest)); discriminate.
  - intros ->. reflexivity.
Qed.

Lemma renderer_checks_no_shape_witness :
  same_columns More.ragged_rows = false
  /\ all_have_text More.ragged_rows = true
  /\ fst (convert_to_html_table_call Sample.generator More.ragged_rows
            (Sample.world0 (fun _ => Answers Sample.db) Accepts))
     <> Raise RenderError
  /\ convert_to_html_table_call Sample.generator More.ragged_rows
       (Sample.world0 (fun _ => Answers Sample.db) Accepts)
     = (Ok ("<table><thead><tr>"
            ++ Str.join (map header_cell (Dict.keys [("x", VStr "1"); ("y", VNone)]))
            ++ "</tr></thead><tbody>" ++ Str.join (map body_row More.ragged_rows)
            ++ "</tbody></table>"),
        Sample.world0 (fun _ => Answers Sample.db) Accepts).
Proof.
  assert (Hs : same_columns More.ragged_rows = false) by reflexivity.
  assert (Ht : all_have_text More.ragged_rows = true) by reflexivity.
  split; [exact Hs|]. split; [exact Ht|].
  destruct (renderer_checks_no_shape Sample.generator
              [("x", VStr "1"); ("y", VNone)] [[("x", VStr "2")]]
              (Sample.world0 (fun _ => Answers Sample.db) Accepts) Hs) as [H1 H2].
  split; [exact H1 | exact (H2 Ht)].
Defined.

(** C10, as stated, fails on two rows with different columns: they are
    rendered, the second row with two cells under a one-cell header. *)
Lemma mixed_rows_are_rendered :
  same_columns Sample.mixed_rows = false
  /\ convert_to_html_table_call Sample.generator Sample.mixed_rows
       (Sample.world0 (fun _ => Answers Sample.db) Accepts)
     = (Ok ("<table><thead><tr><th>a</th></tr></thead><tbody>"
            ++ "<tr><td>1</td></tr><tr><td>2</td><td>None</td></tr></tbody></table>"),
        Sample.world0 (fun _ => Answers Sample.db) Accepts)
  /\ fst (convert_to_html_table_call Sample.generator Sample.mixed_rows
            (Sample.world0 (fun _ => Answers Sample.db) Accepts))
     <> Raise RenderError.
Proof.
  split; [reflexivity|]. split; [vm_compute; reflexivity|].
  intros H. vm_compute in H. discriminate H.
Qed.

(** The one way the call can raise: an integer cell with more digits than
    the interpreter turns into text. *)
Lemma integer_cell_beyond_the_limit (self : ReportGenerator) (k : string) (n : Z)
  (rest : list pydict) (w : world) :
  (10 ^ max_str_digits <= Z.abs n)%Z ->
  convert_to_html_table_call self ([(k, VInt n)] :: rest) w = (Raise ValueError, w).
Proof.
  intros H. apply Z.ltb_ge in H.
  unfold convert_to_html_table_call, all_have_text.
  cbn [forallb Dict.values map snd has_text]. rewrite H. reflexivity.
Qed.

Lemma table_fragment_shape_witness :
  Dict.wf Sample.scenario_b_row
  /\ exists header_cells body_rows : list string,
       convert_to_html_table [Sample.scenario_b_row] =
         "<table><thead><tr>" ++ Str.join header_cells ++ "</tr></thead><tbody>"
         ++ Str.join body_rows ++ "</tbody></table>"
       /\ header_cells =
            map (fun k => "<th>" ++ k ++ "</th>") (Dict.keys Sample.scenario_b_row)
       /\ length header_cells = length Sample.scenario_b_row
       /\ NoDup header_cells
       /\ length body_rows = length [Sample.scenario_b_row]
       /\ forall i row,
            nth_error [Sample.scenario_b_row] i = Some row ->
            nth_error body_rows i =
              Some ("<tr>"
                    ++ Str.join (map (fun v => "<td>" ++ py_str v ++ "</td>")
                                   (Dict.values row))
                    ++ "</tr>").
Proof.
  assert (Hwf : Dict.wf Sample.scenario_b_row) by (unfold Dict.wf; simpl; literal_nodup).
  split; [exact Hwf|].
  exact (table_fragment_shape Sample.scenario_b_row [] Hwf).
Defined.

(** Scenario B of the specification: one row gives four header cells and one
    body row that repeats the input. *)
Example scenario_b_table :
  convert_to_html_table [Sample.scenario_b_row] =
  "<table><thead><tr><th>trigger_name</th><th>process_name</th><th>last_run</th>"
  ++ "<th>next_run</th></tr></thead><tbody><tr><td>T1</td><td>P1</td>"
  ++ "<td>2024-01-01T00:00</td><td>2024-01-02T00:00</td></tr></tbody></table>".
Proof. reflexivity. Qed.

Lemma cell_text_is_not_escaped_witness :
  In Sample.markup_row [Sample.markup_row]
  /\ In ("trigger_name", VStr "<script>alert(1)</script>") Sample.markup_row
  /\ Str.contains ("<td>" ++ "<script>alert(1)</script>" ++ "</td>")
       (convert_to_html_table [Sample.markup_row]) = true.
Proof.
  assert (Hrow : In Sample.markup_row [Sample.markup_row]) by (simpl; auto).
  assert (Hcell : In ("trigger_name", VStr "<script>alert(1)</script>") Sample.markup_row)
    by (simpl; auto).
  split; [exact Hrow|]. split; [exact Hcell|].
  exact (cell_text_is_not_escaped [Sample.markup_row] Sample.markup_row
           "trigger_name" "<script>alert(1)</script>" Hrow Hcell).
Defined.

(** ** The message *)

(** C5: the subject carries the warning suffix and the three priority fields
    are set exactly when the alert flag is true; with a false flag the
    subject is the plain one and none of the three fields is there. *)
Theorem alert_marks_the_message (settings : email_settings_t) (html : string) (flag : bool) :
  let msg := build_message settings html flag in
  (exists subject,
     get_header "Subject" msg = Some subject
     /\ (Str.endswith subject warning_suffix = true <-> flag = true)
     /\ (Str.contains warning_suffix subject = true <-> flag = true))
  /\ (get_header "X-Priority" msg = Some "1" <-> flag = true)
  /\ (get_header "X-MSMail-Priority" msg = Some "High" <-> flag = true)
  /\ (get_header "Importance" msg = Some "High" <-> flag = true)
  /\ (get_header "X-Priority" msg = None <-> flag = false)
  /\ (get_header "X-MSMail-Priority" msg = None <-> flag = false)
  /\ (get_header "Importance" msg = None <-> flag = false)
  /\ (get_header "Subject" msg = Some base_subject <-> flag = false)
  /\ payload msg = [MIMEText html "html"].
Proof.
  destruct flag; cbv zeta.
  - split.
    + exists (base_subject ++ warning_suffix). repeat split; reflexivity.
    + repeat split; try reflexivity; try discriminate.
  - split.
    + exists base_subject. repeat split; try reflexivity; try discriminate.
    + repeat split; try reflexivity; try discriminate.
Qed.

(** ** The monad *)

Lemma bind_ok {A B} (m : M A) (k : A -> M B) (w w' : world) (a : A) :
  m w = (Ok a, w') -> bind m k w = k a w'.
Proof. unfold bind. now intros ->. Qed.

Lemma bind_raise {A B} (m : M A) (k : A -> M B) (w w' : world) (e : exn) :
  m w = (Raise e, w') -> bind m k w = (Raise e, w').
Proof. unfold bind. now intros ->. Qed.

Lemma bind_eq {A B} (m : M A) (k : A -> M B) (w : world) :
  bind m k w =
  match m w with
  | (Ok a, w') => k a w'
  | (Raise e, w') => (Raise e, w')
  end.
Proof. reflexivity. Qed.

Lemma same_outside_db_refl (w : world) : same_outside_db w w.
Proof. repeat split. Qed.

Lemma same_outside_db_trans (w1 w2 w3 : world) :
  same_outside_db w1 w2 -> same_outside_db w2 w3 -> same_outside_db w1 w3.
Proof.
  unfold same_outside_db. intros (A1 & A2 & A3 & A4 & A5 & A6 & A7 & A8)
    (B1 & B2 & B3 & B4 & B5 & B6 & B7 & B8).
  repeat split; congruence.
Qed.

(** ** [fetch_data] *)

(** The whole behaviour of one fetch, by the server's answer. *)
Lemma fetch_data_eq (self : ReportGenerator) (q : query) (w : world) :
  fetch_data self q w =
  match find (fun c => String.eqb (fst c) "DbConnectionString")
             (constants (orchestrator_connection self)) with
  | None => (Raise ConfigurationError, w)
  | Some _ =>
      let n := attempts w in
      let w1 := set_attempts (S n) w in
      match server w n with
      | ConnectFails => (Raise DatabaseError, w1)
      | ExecuteFails =>
          (Raise DatabaseError, set_open_connections (n :: open_connections w) w1)
      | Answers db =>
          (Ok (fetched q db),
           set_open_connections (remove Nat.eq_dec n (n :: open_connections w)) w1)
      end
  end.
Proof.
  unfold fetch_data, get_db_connection, get_constant, bind.
  destruct (find _ _) as [c|]; [|reflexivity].
  unfold ret, pyodbc_connect, cursor_execute. cbv zeta.
  destruct (server w (attempts w)) as [| |db] eqn:E; try reflexivity.
  - simpl. rewrite E. reflexivity.
  - simpl. rewrite E. reflexivity.
Qed.

Lemma fetch_data_cases (self : ReportGenerator) (q : query) (w : world) :
  has_connection_string (orchestrator_connection self) ->
  exists w',
    attempts w' = S (attempts w) /\ same_outside_db w w'
    /\ ((exists db, server w (attempts w) = Answers db
                    /\ fetch_data self q w = (Ok (fetched q db), w'))
        \/ (is_answer (server w (attempts w)) = false
            /\ fetch_data self q w = (Raise DatabaseError, w'))).
Proof.
  intros [c Hc]. rewrite fetch_data_eq, Hc. cbv zeta.
  destruct (server w (attempts w)) as [| |db] eqn:E; eexists;
    (split; [|split; [|(left; exists db; split; reflexivity) || (right; split; reflexivity)]]);
    try reflexivity; repeat split.
Qed.

Lemma fetch_data_unconfigured (self : ReportGenerator) (q : query) (w : world) :
  ~ has_connection_string (orchestrator_connection self) ->
  fetch_data self q w = (Raise ConfigurationError, w).
Proof.
  intros H. rewrite fetch_data_eq.
  destruct (find _ _) as [c|] eqn:E; [|reflexivity].
  elim H. now exists c.
Qed.

Lemma has_connection_string_dec (oc : OrchestratorConnection) :
  has_connection_string oc \/ ~ has_connection_string oc.
Proof.
  unfold has_connection_string.
  destruct (find _ (constants oc)) as [c|]; [left; now exists c | right; intros [c H]; discriminate].
Qed.

(** ** The order of timestamps *)

Lemma lex_ltb_irrefl (a : list nat) : lex_ltb a a = false.
Proof.
  induction a as [|x a IH]; simpl; [reflexivity|].
  now rewrite Nat.ltb_irrefl, Nat.eqb_refl, IH.
Qed.

Lemma lex_ltb_trans (a b c : list nat) :
  lex_ltb a b = true -> lex_ltb b c = true -> lex_ltb a c = true.
Proof.
  revert b c. induction a as [|x a IH]; intros [|y b] [|z c]; simpl; try discriminate; auto.
  intros H1 H2.
  apply orb_true_iff in H1. apply orb_true_iff in H2. apply orb_true_iff.
  destruct H1 as [H1|H1]; destruct H2 as [H2|H2];
    rewrite ?andb_true_iff, ?Nat.ltb_lt, ?Nat.eqb_eq in *.
  - left. lia.
  - left. lia.
  - left. lia.
  - right. split; [lia|]. destruct H1 as [_ H1]. destruct H2 as [_ H2]. now apply (IH b c).
Qed.

Lemma dt_ltb_irrefl (d : datetime) : dt_ltb d d = false.
Proof. apply lex_ltb_irrefl. Qed.

Lemma dt_ltb_trans (a b c : datetime) :
  dt_ltb a b = true -> dt_ltb b c = true -> dt_ltb a c = true.
Proof. apply lex_ltb_trans. Qed.

Lemma dt_ltb_asym (a b : datetime) : dt_ltb a b = true -> dt_ltb b a = false.
Proof.
  intros H. destruct (dt_ltb b a) eqn:E; [|reflexivity].
  now rewrite <- (dt_ltb_irrefl a), <- (dt_ltb_trans a b a H E).
Qed.

(** ** ORDER BY *)

Section OrderByFacts.
Variable A : Type.
Variable leb : string -> string -> bool.
Variable key : A -> string.
Hypothesis leb_total : forall a b, leb a b = true \/ leb b a = true.

Let le (x y : A) : Prop := leb (key x) (key y) = true.

Lemma insert_perm (x : A) (l : list A) : Permutation (Sql.insert leb key x l) (x :: l).
Proof.
  induction l as [|y l IH]; simpl; [reflexivity|].
  destruct (leb (key x) (key y)); [reflexivity|].
  rewrite IH. apply perm_swap.
Qed.

Lemma order_by_perm (l : list A) : Permutation (Sql.order_by leb key l) l.
Proof.
  induction l as [|x l IH]; simpl; [reflexivity|].
  rewrite insert_perm. now constructor.
Qed.

Lemma insert_sorted (x : A) (l : list A) : Sorted le l -> Sorted le (Sql.insert leb key x l).
Proof.
  induction l as [|y l IH]; simpl; intros H.
  - repeat constructor.
  - destruct (leb (key x) (key y)) eqn:E.
    + constructor; [exact H|]. constructor. exact E.
    + apply Sorted_inv in H as [Hs Hh]. constructor; [now apply IH|].
      destruct l as [|z l]; simpl.
      * constructor. unfold le. destruct (leb_total (key x) (key y)); congruence.
      * destruct (leb (key x) (key z)).
        -- constructor. unfold le. destruct (leb_total (key x) (key y)); congruence.
        -- constructor. now apply HdRel_inv in Hh.
Qed.

Lemma order_by_sorted (l : list A) : Sorted le (Sql.order_by leb key l).
Proof.
  induction l as [|x l IH]; simpl; [constructor | now apply insert_sorted].
Qed.

Lemma order_by_in (x : A) (l : list A) : In x (Sql.order_by leb key l) <-> In x l.
Proof.
  split; apply Permutation_in; [|symmetry]; apply order_by_perm.
Qed.

End OrderByFacts.

Lemma sorted_map {A B : Type} (R : A -> A -> Prop) (R' : B -> B -> Prop) (f : A -> B)
  (l : list A) :
  (forall a b, R a b -> R' (f a) (f b)) -> Sorted R l -> Sorted R' (map f l).
Proof.
  intros Hf H. induction H as [|x l Hs IH Hh]; simpl; constructor; [exact IH|].
  destruct Hh; simpl; constructor. now apply Hf.
Qed.

(** ** The missed-runs statement *)

Lemma in_join_on_id (t : Trigger) (st : Scheduled_Trigger)
  (ts : list Trigger) (sts : list Scheduled_Trigger) :
  In (t, st) (Sql.join_on_id ts sts) <-> In t ts /\ In st sts /\ t_id t = st_id st.
Proof.
  unfold Sql.join_on_id. rewrite in_flat_map. split.
  - intros [t' [Ht H]]. apply in_map_iff in H as [st' [E H]].
    injection E as -> ->. apply filter_In in H as [Hst Hid].
    apply Z.eqb_eq in Hid. auto.
  - intros (Ht & Hst & Hid). exists t. split; [exact Ht|].
    apply in_map, filter_In. split; [exact Hst | now apply Z.eqb_eq].
Qed.

Lemma missed_runs_where_true (db : database) (t : Trigger) (st : Scheduled_Trigger) :
  missed_runs_where db (t, st) = true <->
  exists last next,
    t_last_run t = Some last /\ st_next_run st = Some next
    /\ dt_ltb last next = true /\ dt_ltb next (GETDATE db) = true.
Proof.
  unfold missed_runs_where, Sql.gt, Sql.lt, Sql.and, Sql.holds. simpl.
  destruct (t_last_run t) as [l|], (st_next_run st) as [n|]; split;
    try (intros H; discriminate H);
    try (intros (l' & n' & H1 & H2 & _); discriminate).
  - intros H. exists l, n.
    destruct (dt_ltb l n), (dt_ltb n (GETDATE db)); try discriminate. auto.
  - intros (l' & n' & H1 & H2 & H3 & H4). injection H1 as <-. injection H2 as <-.
    now rewrite H3, H4.
  - destruct (dt_ltb n (GETDATE db)); intros H; discriminate H.
Qed.

Lemma missed_runs_dict_keys (db : database) (d : pydict) :
  In d (fetched missed_runs_query db) ->
  Dict.keys d = ["trigger_name"; "process_name"; "last_run"; "next_run"].
Proof.
  unfold fetched, rows_as_dicts. simpl. rewrite map_map.
  intros H. apply in_map_iff in H as [r [<- _]]. reflexivity.
Qed.

Lemma binary_leb_total (a b : string) :
  Sample.binary_leb a b = true \/ Sample.binary_leb b a = true.
Proof.
  unfold Sample.binary_leb, String.leb. rewrite (String.compare_antisym b a).
  destruct (String.compare a b); simpl; auto.
Qed.

(** C2: the missed-runs statement yields one tuple for each trigger joined to
    its schedule whose last run is strictly before the next run and whose
    next run is strictly before the server's clock, no other tuple, ordered by
    trigger name ascending, under the columns trigger_name, process_name,
    last_run, next_run; and that is what [missed_runs_report] returns. *)
Theorem missed_runs_query_meaning (db : database) :
  (forall a b, collation_leb db a b = true \/ collation_leb db b a = true) ->
  map fst (description (missed_runs_query db))
    = ["trigger_name"; "process_name"; "last_run"; "next_run"]
  /\ (forall row,
        In row (fetchall (missed_runs_query db)) <->
        exists t st last next,
          In t (Triggers db) /\ In st (Scheduled_Triggers db) /\ t_id t = st_id st
          /\ t_last_run t = Some last /\ st_next_run st = Some next
          /\ dt_ltb last next = true /\ dt_ltb next (GETDATE db) = true
          /\ row = [VStr (t_trigger_name t); VStr (t_process_name t);
                    VDatetime last; VDatetime next])
  /\ Permutation (fetchall (missed_runs_query db))
       (map missed_runs_select
          (filter (missed_runs_where db)
             (Sql.join_on_id (Triggers db) (Scheduled_Triggers db))))
  /\ Sorted (fun r1 r2 => collation_leb db (first_column r1) (first_column r2) = true)
       (fetchall (missed_runs_query db))
  /\ (forall d, In d (fetched missed_runs_query db) ->
                Dict.keys d = ["trigger_name"; "process_name"; "last_run"; "next_run"])
  /\ (forall self w,
        has_connection_string (orchestrator_connection self) ->
        server w (attempts w) = Answers db ->
        fst (missed_runs_report self w) = Ok (fetched missed_runs_query db)).
Proof.
  intros Htotal. split; [reflexivity|]. split; [|split; [|split; [|split]]].
  - intros row. simpl. unfold missed_runs_rows. rewrite in_map_iff. split.
    + intros [[t st] [<- H]]. apply order_by_in, filter_In in H as [Hj Hw].
      apply in_join_on_id in Hj as (Ht & Hst & Hid).
      apply missed_runs_where_true in Hw as (l & n & Hl & Hn & H1 & H2).
      exists t, st, l, n. unfold missed_runs_select. simpl. rewrite Hl, Hn. simpl.
      repeat split; assumption.
    + intros (t & st & l & n & Ht & Hst & Hid & Hl & Hn & H1 & H2 & ->).
      exists (t, st). split.
      * unfold missed_runs_select. simpl. now rewrite Hl, Hn.
      * apply order_by_in, filter_In. split; [now apply in_join_on_id|].
        apply missed_runs_where_true. now exists l, n.
  - simpl. apply Permutation_map. unfold missed_runs_rows. apply order_by_perm.
  - simpl. unfold missed_runs_rows.
    apply sorted_map with (R := fun x y : Trigger * Scheduled_Trigger =>
                                  collation_leb db (t_trigger_name (fst x))
                                    (t_trigger_name (fst y)) = true).
    + intros a b H. exact H.
    + apply order_by_sorted. exact Htotal.
  - apply missed_runs_dict_keys.
  - intros self w Hc Hs. unfold missed_runs_report.
    destruct (fetch_data_cases self missed_runs_query w Hc) as (w' & _ & _ & [H|H]).
    + destruct H as (db' & Hs' & ->). rewrite Hs in Hs'. now injection Hs' as <-.
    + destruct H as [H _]. rewrite Hs in H. discriminate.
Qed.

Lemma missed_runs_query_meaning_witness :
  (forall a b, collation_leb Sample.db a b = true \/ collation_leb Sample.db b a = true)
  /\ fetchall (missed_runs_query Sample.db)
     = [ [VStr "T1"; VStr "P1"; VDatetime (Sample.dt 2024 1 1 0 0);
          VDatetime (Sample.dt 2024 1 2 0 0)];
         [VStr "T2"; VStr "P2"; VDatetime (Sample.dt 2024 1 1 0 0);
          VDatetime (Sample.dt 2024 1 2 0 0)] ]
  /\ Sorted (fun r1 r2 =>
               collation_leb Sample.db (first_column r1) (first_column r2) = true)
       (fetchall (missed_runs_query Sample.db))
  /\ fst (missed_runs_report Sample.generator
            (Sample.world0 (fun _ => Answers Sample.db) Accepts))
     = Ok (fetched missed_runs_query Sample.db).
Proof.
  split; [exact binary_leb_total|]. split; [reflexivity|].
  destruct (missed_runs_query_meaning Sample.db binary_leb_total)
    as (_ & _ & _ & Hsorted & _ & Hreport).
  split; [exact Hsorted|].
  apply Hreport; [|reflexivity].
  eexists. reflexivity.
Defined.

(** ** The database connection *)

(** When the statement runs, the connection made for it is closed again. *)
Lemma fetch_data_closes_on_success (self : ReportGenerator) (q : query) (w : world)
  (db : database) :
  has_connection_string (orchestrator_connection self) ->
  server w (attempts w) = Answers db ->
  ~ In (attempts w) (open_connections (snd (fetch_data self q w))).
Proof.
  intros [c Hc] Hs. rewrite fetch_data_eq, Hc. cbv zeta. rewrite Hs.
  exact (remove_In Nat.eq_dec (attempts w :: open_connections w) (attempts w)).
Qed.

(** When the statement fails after the connection was made, the connection
    stays open: [conn.close()] is not reached. *)
Lemma fetch_data_open_after_execute_failure (self : ReportGenerator) (q : query)
  (w : world) :
  has_connection_string (orchestrator_connection self) ->
  server w (attempts w) = ExecuteFails ->
  fst (fetch_data self q w) = Raise DatabaseError
  /\ open_connections (snd (fetch_data self q w)) = attempts w :: open_connections w.
Proof.
  intros [c Hc] Hs. rewrite fetch_data_eq, Hc. cbv zeta. rewrite Hs. split; reflexivity.
Qed.

(** C8 fails on the code: when [cursor.execute] raises, [conn.close()] is not
    reached and the connection made for the call stays open. *)
Theorem fetch_data_leaks_connection_on_execute_failure :
  let w := Sample.world0 (fun _ => ExecuteFails) Accepts in
  fetch_data Sample.generator missed_runs_query w
  = (Raise DatabaseError, set_open_connections [0] (set_attempts 1 w))
  /\ open_connections w = []
  /\ open_connections (snd (fetch_data Sample.generator missed_runs_query w)) = [0].
Proof. repeat split. Qed.

(** ** One report *)

Lemma list_bool_or {A} (x y : list A) : list_bool (list_or x y) = list_bool x || list_bool y.
Proof. destruct x; reflexivity. Qed.

(** The alert flag of a bundle, as [generate_html_report] computes it. *)
Lemma alert_iff (b : ReportBundle) :
  alert b = true <-> missed b <> [] \/ overdue b <> [].
Proof.
  unfold alert. rewrite list_bool_or, orb_true_iff.
  destruct (missed b), (overdue b); simpl; split; intros [H|H];
    try discriminate; try (now elim H); auto; try (left; discriminate); right; discriminate.
Qed.

(** The four statements return names, statuses and timestamps only, and each
    of those has a text. *)
Lemma fetched_all_have_text (db : database) :
  all_have_text (fetched missed_runs_query db) = true
  /\ all_have_text (fetched overdue_processes_query db) = true
  /\ all_have_text (fetched process_failure_query db) = true
  /\ all_have_text (fetched process_status_query db) = true.
Proof.
  unfold all_have_text, fetched, rows_as_dicts.
  repeat split; apply forallb_forall; intros d Hd; simpl in Hd; rewrite map_map in Hd;
    apply in_map_iff in Hd as [r [<- _]]; cbn;
    repeat match goal with
           | |- context [Sql.datetime_value ?x] => destruct x; cbn
           end; reflexivity.
Qed.

Lemma convert_to_html_table_call_fetched (self : ReportGenerator) (db : database) :
  convert_to_html_table_call self (fetched missed_runs_query db)
  = ret (convert_to_html_table (fetched missed_runs_query db))
  /\ convert_to_html_table_call self (fetched overdue_processes_query db)
     = ret (convert_to_html_table (fetched overdue_processes_query db))
  /\ convert_to_html_table_call self (fetched process_failure_query db)
     = ret (convert_to_html_table (fetched process_failure_query db))
  /\ convert_to_html_table_call self (fetched process_status_query db)
     = ret (convert_to_html_table (fetched process_status_query db)).
Proof.
  unfold convert_to_html_table_call.
  destruct (fetched_all_have_text db) as (-> & -> & -> & ->). repeat split.
Qed.

Lemma generate_html_report_unconfigured (self : ReportGenerator) (w : world) :
  ~ has_connection_string (orchestrator_connection self) ->
  generate_html_report self w = (Raise ConfigurationError, w).
Proof.
  intros H. unfold generate_html_report, missed_runs_report.
  apply bind_raise. now apply fetch_data_unconfigured.
Qed.

(** One report either reads four answers in a row and returns the document
    and flag of that bundle, or stops at the first statement that fails. *)
Lemma generate_html_report_cases (self : ReportGenerator) (w : world) :
  has_connection_string (orchestrator_connection self) ->
  exists w',
    same_outside_db w w'
    /\ ((exists db0 db1 db2 db3,
           answers_from w (attempts w) [db0; db1; db2; db3]
           /\ attempts w' = attempts w + 4
           /\ generate_html_report self w =
                (Ok (rendered (bundle_of db0 db1 db2 db3),
                     alert (bundle_of db0 db1 db2 db3)), w'))
        \/ (exists i,
              i < 4 /\ is_answer (server w (attempts w + i)) = false
              /\ generate_html_report self w = (Raise DatabaseError, w'))).
Proof.
  intros Hc.
  unfold generate_html_report, missed_runs_report, overdue_processes_report,
    process_failure_report, process_status_report.
  destruct (fetch_data_cases self missed_runs_query w Hc)
    as (w1 & Ha1 & Hs1 & [(db0 & Hdb0 & E1)|(Hf & E1)]).
  2: { exists w1. split; [exact Hs1|]. right. exists 0. rewrite Nat.add_0_r.
       split; [lia|]. split; [exact Hf|]. now apply bind_raise. }
  rewrite (bind_ok _ _ _ _ _ E1).
  destruct (fetch_data_cases self overdue_processes_query w1 Hc)
    as (w2 & Ha2 & Hs2 & [(db1 & Hdb1 & E2)|(Hf & E2)]).
  2: { exists w2. split; [now apply (same_outside_db_trans w w1 w2)|]. right. exists 1.
       split; [lia|]. split; [|now apply bind_raise].
       destruct Hs1 as [S1 _]. rewrite S1, Ha1 in Hf. now rewrite Nat.add_1_r. }
  rewrite (bind_ok _ _ _ _ _ E2).
  destruct (fetch_data_cases self process_failure_query w2 Hc)
    as (w3 & Ha3 & Hs3 & [(db2 & Hdb2 & E3)|(Hf & E3)]).
  2: { exists w3.
       split; [apply (same_outside_db_trans w w2 w3); [|exact Hs3];
               now apply (same_outside_db_trans w w1 w2)|].
       right. exists 2. split; [lia|]. split; [|now apply bind_raise].
       destruct Hs1 as [S1 _]. destruct Hs2 as [S2 _].
       rewrite S2, S1, Ha2, Ha1 in Hf.
       now replace (attempts w + 2) with (S (S (attempts w))) by lia. }
  rewrite (bind_ok _ _ _ _ _ E3).
  assert (Hs13 : same_outside_db w w3)
    by (eapply same_outside_db_trans; [|exact Hs3];
        eapply same_outside_db_trans; eassumption).
  destruct (fetch_data_cases self process_status_query w3 Hc)
    as (w4 & Ha4 & Hs4 & [(db3 & Hdb3 & E4)|(Hf & E4)]).
  2: { exists w4. split; [now apply (same_outside_db_trans w w3 w4)|].
       right. exists 3. split; [lia|]. split; [|now apply bind_raise].
       destruct Hs13 as [S3 _]. rewrite S3, Ha3, Ha2, Ha1 in Hf.
       now replace (attempts w + 3) with (S (S (S (attempts w)))) by lia. }
  rewrite (bind_ok _ _ _ _ _ E4).
  exists w4. split; [now apply (same_outside_db_trans w w3 w4)|].
  left. exists db0, db1, db2, db3.
  destruct Hs1 as [S1 _]. destruct Hs2 as [S2 _]. destruct Hs3 as [S3 _].
  split.
  - simpl. rewrite S3, S2, S1, Ha3, Ha2, Ha1 in Hdb3.
    rewrite S2, S1, Ha2, Ha1 in Hdb2. rewrite S1, Ha1 in Hdb1. auto.
  - split; [lia|].
    destruct (convert_to_html_table_call_fetched self db0) as (-> & _).
    destruct (convert_to_html_table_call_fetched self db1) as (_ & -> & _).
    destruct (convert_to_html_table_call_fetched self db2) as (_ & _ & -> & _).
    destruct (convert_to_html_table_call_fetched self db3) as (_ & _ & _ & ->).
    reflexivity.
Qed.

Lemma answers_from_is_answer (w : world) (n : nat) (dbs : list database) (i : nat) :
  answers_from w n dbs -> i < length dbs -> is_answer (server w (n + i)) = true.
Proof.
  revert n i. induction dbs as [|db dbs IH]; intros n i H Hi; simpl in *; [lia|].
  destruct H as [H0 H]. destruct i as [|i].
  - now rewrite Nat.add_0_r, H0.
  - replace (n + S i) with (S n + i) by lia. apply IH; [exact H | lia].
Qed.

Lemma generate_html_report_ok_inv (self : ReportGenerator) (w w' : world)
  (r : string * bool) :
  generate_html_report self w = (Ok r, w') ->
  exists db0 db1 db2 db3,
    answers_from w (attempts w) [db0; db1; db2; db3]
    /\ attempts w' = attempts w + 4
    /\ same_outside_db w w'
    /\ r = (rendered (bundle_of db0 db1 db2 db3), alert (bundle_of db0 db1 db2 db3)).
Proof.
  intros H. destruct (has_connection_string_dec (orchestrator_connection self)) as [Hc|Hc].
  - destruct (generate_html_report_cases self w Hc) as (w1 & Hs & [Hok|Hfail]).
    + destruct Hok as (db0 & db1 & db2 & db3 & Hans & Hatt & E).
      rewrite E in H. injection H as <- <-. now exists db0, db1, db2, db3.
    + destruct Hfail as (i & _ & _ & E). rewrite E in H. discriminate.
  - rewrite (generate_html_report_unconfigured self w Hc) in H. discriminate.
Qed.

Lemma generate_html_report_raise_inv (self : ReportGenerator) (w w' : world) (e : exn) :
  generate_html_report self w = (Raise e, w') -> same_outside_db w w'.
Proof.
  intros H. destruct (has_connection_string_dec (orchestrator_connection self)) as [Hc|Hc].
  - destruct (generate_html_report_cases self w Hc) as (w1 & Hs & [Hok|Hfail]).
    + destruct Hok as (db0 & db1 & db2 & db3 & _ & _ & E). rewrite E in H. discriminate.
    + destruct Hfail as (i & _ & _ & E). rewrite E in H. now injection H as <- <-.
  - rewrite (generate_html_report_unconfigured self w Hc) in H. injection H as <- <-.
    apply same_outside_db_refl.
Qed.

Lemma generate_html_report_fails (self : ReportGenerator) (w : world) (i : nat) :
  has_connection_string (orchestrator_connection self) ->
  i < 4 -> is_answer (server w (attempts w + i)) = false ->
  exists w', generate_html_report self w = (Raise DatabaseError, w') /\ same_outside_db w w'.
Proof.
  intros Hc Hi Hf.
  destruct (generate_html_report_cases self w Hc) as (w1 & Hs & [Hok|Hfail]).
  - destruct Hok as (db0 & db1 & db2 & db3 & Hans & _ & _).
    apply (answers_from_is_answer _ _ _ i) in Hans; [congruence | simpl; lia].
  - destruct Hfail as (j & _ & _ & E). now exists w1.
Qed.

(** C1: whenever a report is produced, its document shows the very four
    result sets the four statements returned (each statement run once), and
    its alert flag is true exactly when the missed-runs set or the overdue
    set among them is non-empty, in each of the four combinations. *)
Theorem alert_flag_of_the_rendered_bundle (self : ReportGenerator) (w w' : world)
  (html : string) (flag : bool) :
  generate_html_report self w = (Ok (html, flag), w') ->
  exists db0 db1 db2 db3,
    answers_from w (attempts w) [db0; db1; db2; db3]
    /\ attempts w' = attempts w + 4
    /\ let b := bundle_of db0 db1 db2 db3 in
       html = rendered b
       /\ (flag = true <-> missed b <> [] \/ overdue b <> [])
       /\ (missed b = [] -> overdue b = [] -> flag = false)
       /\ (missed b = [] -> overdue b <> [] -> flag = true)
       /\ (missed b <> [] -> overdue b = [] -> flag = true)
       /\ (missed b <> [] -> overdue b <> [] -> flag = true).
Proof.
  intros H. apply generate_html_report_ok_inv in H
    as (db0 & db1 & db2 & db3 & Hans & Hatt & _ & E).
  injection E as -> ->. exists db0, db1, db2, db3.
  split; [exact Hans|]. split; [exact Hatt|]. cbv zeta.
  split; [reflexivity|]. split; [apply alert_iff|].
  pose proof (alert_iff (bundle_of db0 db1 db2 db3)) as Hiff.
  repeat split.
  - intros Hm Ho. destruct (alert (bundle_of db0 db1 db2 db3)) eqn:E; [|reflexivity].
    destruct Hiff as [Hiff _]. destruct (Hiff eq_refl) as [X|X]; now elim X.
  - intros _ Ho. apply Hiff. now right.
  - intros Hm _. apply Hiff. now left.
  - intros Hm _. apply Hiff. now left.
Qed.

Lemma alert_flag_of_the_rendered_bundle_witness :
  exists html w',
    generate_html_report Sample.generator
      (Sample.world0 (fun _ => Answers Sample.db) Accepts) = (Ok (html, true), w')
    /\ exists db0 db1 db2 db3,
         answers_from (Sample.world0 (fun _ => Answers Sample.db) Accepts) 0
           [db0; db1; db2; db3]
         /\ attempts w' = 0 + 4
         /\ let b := bundle_of db0 db1 db2 db3 in
            html = rendered b
            /\ (true = true <-> missed b <> [] \/ overdue b <> [])
            /\ (missed b = [] -> overdue b = [] -> true = false)
            /\ (missed b = [] -> overdue b <> [] -> true = true)
            /\ (missed b <> [] -> overdue b = [] -> true = true)
            /\ (missed b <> [] -> overdue b <> [] -> true = true).
Proof.
  eexists. eexists. split.
  - vm_compute. reflexivity.
  - apply (alert_flag_of_the_rendered_bundle Sample.generator
             (Sample.world0 (fun _ => Answers Sample.db) Accepts)).
    vm_compute. reflexivity.
Defined.

(** Scenario A of the specification: four empty result sets give four
    placeholder sections and no alert. *)
Example scenario_a (b : ReportBundle) :
  missed b = [] -> overdue b = [] -> failed b = [] -> status b = [] ->
  alert b = false
  /\ rendered b = template_render no_data_placeholder no_data_placeholder
                    no_data_placeholder no_data_placeholder.
Proof.
  unfold alert, rendered. intros -> -> -> ->. split; reflexivity.
Qed.

(** ** Sending *)

Lemma send_email_eq {A : Type} (self : ReportGenerator) (h : A) (w : world) :
  send_email self h w =
  match generate_html_report self w with
  | (Ok (html, flag), w1) =>
      submit (email_settings self) (build_message (email_settings self) html flag) w1
  | (Raise e, w1) => (Raise e, w1)
  end.
Proof.
  unfold send_email, bind.
  destruct (generate_html_report self w) as [[[html flag]|e] w1]; reflexivity.
Qed.

(** The block hands over the message when the server accepts it, and nothing
    otherwise; either way no session stays open.  After an accepted message
    the block still raises when QUIT is not answered 221. *)
Lemma submit_cases (settings : email_settings_t) (msg : message) (w : world) :
  smtp_sessions (snd (submit settings msg w)) = smtp_sessions w
  /\ ((mail_server w = Accepts
       /\ fst (submit settings msg w)
          = (if quit_ok w then Ok tt else Raise MailTransportError)
       /\ outbox (snd (submit settings msg w)) = (outbox w ++ [msg])%list
       /\ smtp_log (snd (submit settings msg w)) =
            (smtp_log w ++ [CONNECT (smtp_server settings) (smtp_port settings);
                            STARTTLS; SEND msg; QUIT])%list)
      \/ (mail_server w <> Accepts
          /\ fst (submit settings msg w) = Raise MailTransportError
          /\ outbox (snd (submit settings msg w)) = outbox w)).
Proof.
  unfold submit, with_, smtplib_SMTP, bind, starttls, send_message, print, smtp_exit, quit_ok.
  destruct (mail_server w) eqn:E; cbn; rewrite ?E; cbn; rewrite ?E; cbn;
    destruct (quit_reply w) as [code|]; try destruct (code =? 221)%nat; cbn;
    (split; [reflexivity|]);
    try (right; repeat split; discriminate || reflexivity);
    left; rewrite <- !app_assoc; repeat split; reflexivity.
Qed.

(** What one call of [send_email] can do to the outbox: add the message built
    from the bundle it has just read, or nothing. *)
Lemma send_email_cases {A : Type} (self : ReportGenerator) (h : A) (w : world) :
  (exists db0 db1 db2 db3,
     answers_from w (attempts w) [db0; db1; db2; db3]
     /\ mail_server w = Accepts
     /\ fst (send_email self h w) = (if quit_ok w then Ok tt else Raise MailTransportError)
     /\ outbox (snd (send_email self h w)) =
          (outbox w ++ [build_message (email_settings self)
                          (rendered (bundle_of db0 db1 db2 db3))
                          (alert (bundle_of db0 db1 db2 db3))])%list
     /\ smtp_log (snd (send_email self h w)) =
          (smtp_log w
           ++ [CONNECT (smtp_server (email_settings self)) (smtp_port (email_settings self));
               STARTTLS;
               SEND (build_message (email_settings self)
                       (rendered (bundle_of db0 db1 db2 db3))
                       (alert (bundle_of db0 db1 db2 db3)));
               QUIT])%list)
  \/ (outbox (snd (send_email self h w)) = outbox w
      /\ exists e, fst (send_email self h w) = Raise e).
Proof.
  rewrite send_email_eq.
  destruct (generate_html_report self w) as [[[html flag]|e] w1] eqn:E.
  - apply generate_html_report_ok_inv in E
      as (db0 & db1 & db2 & db3 & Hans & _ & Hs & Er).
    injection Er as -> ->.
    destruct Hs as (_ & Hm & _ & Ho & _ & _ & Hl & Hq).
    destruct (submit_cases (email_settings self)
                (build_message (email_settings self) (rendered (bundle_of db0 db1 db2 db3))
                   (alert (bundle_of db0 db1 db2 db3))) w1)
      as [_ [(Hacc & Hr & Hout & Hlog)|(Hrej & Hr & Hout)]].
    + left. exists db0, db1, db2, db3. rewrite Hout, Hlog, Ho, Hl, <- Hm, Hr.
      unfold quit_ok. rewrite Hq. auto.
    + right. rewrite Hout. split; [exact Ho|]. now exists MailTransportError.
  - right. apply generate_html_report_raise_inv in E. destruct E as (_ & _ & _ & Ho & _).
    split; [exact Ho|]. now exists e.
Qed.

Lemma send_email_database_failure {A : Type} (self : ReportGenerator) (h : A) (w : world)
  (i : nat) :
  has_connection_string (orchestrator_connection self) ->
  i < 4 -> is_answer (server w (attempts w + i)) = false ->
  fst (send_email self h w) = Raise DatabaseError
  /\ outbox (snd (send_email self h w)) = outbox w
  /\ smtp_log (snd (send_email self h w)) = smtp_log w.
Proof.
  intros Hc Hi Hf. rewrite send_email_eq.
  destruct (generate_html_report_fails self w i Hc Hi Hf) as (w1 & -> & Hs).
  destruct Hs as (_ & _ & _ & Ho & _ & _ & Hl & Hq). now repeat split.
Qed.

(** C9: what [send_email] does is the same for any two arguments, of any
    types: the argument is dropped, the bundle is read anew from the
    connections made after the call began, and the message that reaches the
    outbox, if any, is built from that bundle. *)
Theorem send_email_ignores_its_argument (A B : Type) (self : ReportGenerator)
  (h1 : A) (h2 : B) (w : world) :
  send_email self h1 w = send_email self h2 w
  /\ ((exists db0 db1 db2 db3,
         answers_from w (attempts w) [db0; db1; db2; db3]
         /\ outbox (snd (send_email self h1 w)) =
              (outbox w ++ [build_message (email_settings self)
                              (rendered (bundle_of db0 db1 db2 db3))
                              (alert (bundle_of db0 db1 db2 db3))])%list)
      \/ outbox (snd (send_email self h1 w)) = outbox w).
Proof.
  split; [reflexivity|].
  destruct (send_email_cases self h1 w)
    as [(db0 & db1 & db2 & db3 & Hans & _ & _ & Ho & _)|[Ho _]].
  - left. now exists db0, db1, db2, db3.
  - now right.
Qed.

(** ** The whole run *)

Lemma answers_from_server (w w' : world) (n : nat) (dbs : list database) :
  server w' = server w -> answers_from w' n dbs -> answers_from w n dbs.
Proof.
  intros Hs. revert n. induction dbs as [|db dbs IH]; intros n; simpl; [auto|].
  rewrite Hs. intros [H0 H]. split; [exact H0 | now apply IH].
Qed.

Lemma answers_from_app (w : world) (n : nat) (l1 l2 : list database) :
  answers_from w n l1 -> answers_from w (n + length l1) l2 -> answers_from w n (l1 ++ l2).
Proof.
  revert n. induction l1 as [|db l1 IH]; intros n; simpl.
  - now rewrite Nat.add_0_r.
  - intros [H0 H1] H2. split; [exact H0|]. apply IH; [exact H1|].
    now replace (S n + length l1) with (n + S (length l1)) by lia.
Qed.

(** Lines 27 and 28 of [process]: the report is made, then [send_email] is
    called with it.  Either the run ends in an exception with the outbox as it
    was, or all eight statements were answered and the one message added is
    built from the second bundle; the run then returns, unless QUIT is not
    answered 221. *)
Lemma report_then_send_cases (rg : ReportGenerator) (w : world) :
  let run := bind (generate_html_report rg) (fun html_report => send_email rg html_report) w in
  (outbox (snd run) = outbox w /\ exists e, fst run = Raise e)
  \/ (fst run = (if quit_ok w then Ok tt else Raise MailTransportError)
      /\ exists db0 db1 db2 db3 db4 db5 db6 db7,
           answers_from w (attempts w) [db0; db1; db2; db3; db4; db5; db6; db7]
           /\ outbox (snd run) =
                (outbox w ++ [build_message (email_settings rg)
                                (rendered (bundle_of db4 db5 db6 db7))
                                (alert (bundle_of db4 db5 db6 db7))])%list).
Proof.
  cbv zeta. rewrite bind_eq.
  destruct (generate_html_report rg w) as [[r|e] w1] eqn:Eg.
  - apply generate_html_report_ok_inv in Eg
      as (db0 & db1 & db2 & db3 & Hans & Hatt & Hs & _).
    destruct Hs as (Hsrv & _ & _ & Ho & _ & _ & _ & Hq).
    destruct (send_email_cases rg r w1)
      as [(db4 & db5 & db6 & db7 & Hans' & _ & Hr & Hout & _)|[Hout He]].
    + right. split; [rewrite Hr; unfold quit_ok; now rewrite Hq|].
      exists db0, db1, db2, db3, db4, db5, db6, db7.
      split; [|now rewrite Hout, Ho].
      apply (answers_from_app w (attempts w) [db0; db1; db2; db3] [db4; db5; db6; db7]);
        [exact Hans|].
      apply (answers_from_server w w1); [exact Hsrv|]. simpl length. now rewrite <- Hatt.
    + left. split; [now rewrite Hout|exact He].
  - left. apply generate_html_report_raise_inv in Eg. destruct Eg as (_ & _ & _ & Ho & _).
    split; [exact Ho|]. now exists e.
Qed.

Lemma report_then_send_database_failure (rg : ReportGenerator) (w : world) (i : nat) :
  has_connection_string (orchestrator_connection rg) ->
  i < 8 -> is_answer (server w (attempts w + i)) = false ->
  let run := bind (generate_html_report rg) (fun html_report => send_email rg html_report) w in
  fst run = Raise DatabaseError
  /\ outbox (snd run) = outbox w /\ smtp_log (snd run) = smtp_log w.
Proof.
  intros Hc Hi Hf. cbv zeta. rewrite bind_eq.
  destruct (generate_html_report_cases rg w Hc) as (w1 & Hs & [Hok|Hfail]).
  - destruct Hok as (db0 & db1 & db2 & db3 & Hans & Hatt & ->).
    destruct Hs as (Hsrv & _ & _ & Ho & _ & _ & Hl & Hq).
    assert (Hi4 : 4 <= i).
    { destruct (le_lt_dec 4 i) as [H|H]; [exact H|].
      apply (answers_from_is_answer _ _ _ i) in Hans; [congruence | simpl; lia]. }
    destruct (send_email_database_failure rg
                (rendered (bundle_of db0 db1 db2 db3), alert (bundle_of db0 db1 db2 db3))
                w1 (i - 4) Hc) as (Hr & Hout & Hlog).
    + lia.
    + rewrite Hsrv, Hatt. now replace (attempts w + 4 + (i - 4)) with (attempts w + i) by lia.
    + split; [exact Hr|]. split; [now rewrite Hout | now rewrite Hlog].
  - destruct Hfail as (j & _ & _ & ->). destruct Hs as (_ & _ & _ & Ho & _ & _ & Hl & Hq).
    now repeat split.
Qed.

(** Without the connection string no statement is ever run. *)
Lemma report_then_send_unconfigured (rg : ReportGenerator) (w : world) :
  ~ has_connection_string (orchestrator_connection rg) ->
  bind (generate_html_report rg) (fun html_report => send_email rg html_report) w
  = (Raise ConfigurationError, w).
Proof.
  intros Hc. apply bind_raise. now apply generate_html_report_unconfigured.
Qed.

Lemma process_eq (json_loads : string -> option pydict) (SMTP_SERVER SMTP_PORT : value)
  (oc : OrchestratorConnection) (w : world) :
  process json_loads SMTP_SERVER SMTP_PORT oc w =
  let w0 := set_trace_log (trace_log w ++ ["Running process."]) w in
  match json_loads (process_arguments oc) with
  | None => (Raise ConfigurationError, w0)
  | Some args =>
      match find (fun kv => String.eqb (fst kv) "fromEmail") args with
      | None => (Raise ConfigurationError, w0)
      | Some fromEmail =>
          match find (fun kv => String.eqb (fst kv) "toEmail") args with
          | None => (Raise ConfigurationError, w0)
          | Some toEmail =>
              let rg := mkReportGenerator oc
                          (mkSettings (py_str (snd fromEmail)) (py_str (snd toEmail))
                             (py_str SMTP_SERVER) (py_str SMTP_PORT)) in
              bind (generate_html_report rg)
                (fun html_report => send_email rg html_report) w0
          end
      end
  end.
Proof.
  unfold process, log_trace, getitem. rewrite bind_eq. cbv zeta.
  destruct (json_loads (process_arguments oc)) as [args|]; [|reflexivity].
  rewrite bind_eq. unfold ret at 1.
  destruct (find _ args) as [kf|]; [|reflexivity].
  rewrite bind_eq. unfold ret at 1.
  destruct (find _ args) as [kt|]; reflexivity.
Qed.

(** C6: a run of [process] adds a message to the outbox only after all eight
    statements (two rounds of four) were answered, and then exactly one,
    built from the second round; such a run returns, or raises
    [MailTransportError] when the server does not answer QUIT with 221.  Any
    other run ends in an exception with the outbox untouched.  If any of the
    eight statements fails, the run ends in an exception, nothing is sent and
    nothing at all is said to the mail server; with the arguments and the
    connection string in place that exception is [DatabaseError]. *)
Theorem no_mail_unless_every_query_answers
  (json_loads : string -> option pydict) (SMTP_SERVER SMTP_PORT : value)
  (oc : OrchestratorConnection) (w : world) :
  let run := process json_loads SMTP_SERVER SMTP_PORT oc w in
  ((outbox (snd run) = outbox w /\ exists e, fst run = Raise e)
   \/ (fst run = (if quit_ok w then Ok tt else Raise MailTransportError)
       /\ exists db0 db1 db2 db3 db4 db5 db6 db7 settings,
            answers_from w (attempts w) [db0; db1; db2; db3; db4; db5; db6; db7]
            /\ outbox (snd run) =
                 (outbox w ++ [build_message settings
                                 (rendered (bundle_of db4 db5 db6 db7))
                                 (alert (bundle_of db4 db5 db6 db7))])%list))
  /\ (forall i,
        i < 8 -> is_answer (server w (attempts w + i)) = false ->
        (exists e, fst run = Raise e)
        /\ outbox (snd run) = outbox w /\ smtp_log (snd run) = smtp_log w)
  /\ (forall i args fromEmail toEmail,
        json_loads (process_arguments oc) = Some args ->
        find (fun kv => String.eqb (fst kv) "fromEmail") args = Some fromEmail ->
        find (fun kv => String.eqb (fst kv) "toEmail") args = Some toEmail ->
        has_connection_string oc ->
        i < 8 -> is_answer (server w (attempts w + i)) = false ->
        fst run = Raise DatabaseError).
Proof.
  cbv zeta. rewrite process_eq. cbv zeta.
  split; [|split].
  - destruct (json_loads (process_arguments oc)) as [args|];
      [|left; split; [reflexivity | now exists ConfigurationError]].
    destruct (find _ args) as [kf|];
      [|left; split; [reflexivity | now exists ConfigurationError]].
    destruct (find _ args) as [kt|];
      [|left; split; [reflexivity | now exists ConfigurationError]].
    match goal with
    | |- context [generate_html_report ?rg] =>
        destruct (report_then_send_cases rg
                    (set_trace_log (trace_log w ++ ["Running process."]) w))
          as [[Ho He]|[Hr (db0 & db1 & db2 & db3 & db4 & db5 & db6 & db7 & Hans & Ho)]]
    end.
    + left. split; [exact Ho | exact He].
    + right. split; [exact Hr|].
      eexists db0, db1, db2, db3, db4, db5, db6, db7, _. split; [exact Hans | exact Ho].
  - intros i Hi Hf.
    destruct (json_loads (process_arguments oc)) as [args|];
      [|split; [now exists ConfigurationError | split; reflexivity]].
    destruct (find _ args) as [kf|];
      [|split; [now exists ConfigurationError | split; reflexivity]].
    destruct (find _ args) as [kt|];
      [|split; [now exists ConfigurationError | split; reflexivity]].
    destruct (has_connection_string_dec oc) as [Hc|Hc].
    + match goal with
      | |- context [generate_html_report ?rg] =>
          destruct (report_then_send_database_failure rg
                      (set_trace_log (trace_log w ++ ["Running process."]) w) i Hc Hi Hf)
            as (Hr & Ho & Hl)
      end.
      split; [now exists DatabaseError|]. split; [exact Ho | exact Hl].
    + rewrite report_then_send_unconfigured by exact Hc.
      split; [now exists ConfigurationError | split; reflexivity].
  - intros i args kf kt Hj Hfrom Hto Hc Hi Hf. rewrite Hj, Hfrom, Hto.
    match goal with
    | |- context [generate_html_report ?rg] =>
        apply (report_then_send_database_failure rg
                 (set_trace_log (trace_log w ++ ["Running process."]) w) i Hc Hi Hf)
    end.
Qed.

Lemma no_mail_unless_every_query_answers_witness :
  let w := Sample.world0 Sample.sixth_fails Accepts in
  let run := process Sample.loads (VStr "smtp.example.org") (VInt 25) Sample.oc w in
  5 < 8
  /\ is_answer (server w (attempts w + 5)) = false
  /\ Sample.loads (process_arguments Sample.oc)
     = Some [("fromEmail", VStr "robot@example.org"); ("toEmail", VStr "drift@example.org")]
  /\ has_connection_string Sample.oc
  /\ fst run = Raise DatabaseError
  /\ outbox (snd run) = outbox w
  /\ smtp_log (snd run) = smtp_log w.
Proof.
  cbv zeta.
  assert (H5 : 5 < 8) by lia.
  assert (Hf : is_answer (server (Sample.world0 Sample.sixth_fails Accepts)
                            (attempts (Sample.world0 Sample.sixth_fails Accepts) + 5))
               = false) by reflexivity.
  assert (Hc : has_connection_string Sample.oc) by (eexists; reflexivity).
  split; [exact H5|]. split; [exact Hf|]. split; [reflexivity|]. split; [exact Hc|].
  destruct (no_mail_unless_every_query_answers Sample.loads (VStr "smtp.example.org")
              (VInt 25) Sample.oc (Sample.world0 Sample.sixth_fails Accepts))
    as (_ & Hany & Hdb).
  split; [exact (Hdb 5 _ _ _ eq_refl eq_refl eq_refl Hc H5 Hf)|].
  exact (proj2 (Hany 5 H5 Hf)).
Defined.

(** A run in which every statement is answered and the mail server accepts:
    eight connections, all closed again, one message, one line printed. *)
Example a_full_run :
  let run := process Sample.loads (VStr "smtp.example.org") (VInt 25) Sample.oc
               (Sample.world0 (fun _ => Answers Sample.db) Accepts) in
  fst run = Ok tt
  /\ attempts (snd run) = 8
  /\ open_connections (snd run) = []
  /\ smtp_sessions (snd run) = 0
  /\ length (outbox (snd run)) = 1
  /\ stdout (snd run) = ["Email sent to drift@example.org."].
Proof. vm_compute. repeat split. Qed.

(** Scenario D of the specification: the mail server rejects the message
    after the report was made. *)
Example scenario_d :
  let run := process Sample.loads (VStr "smtp.example.org") (VInt 25) Sample.oc
               (Sample.world0 (fun _ => Answers Sample.db) SendRejected) in
  fst run = Raise MailTransportError
  /\ outbox (snd run) = []
  /\ smtp_sessions (snd run) = 0.
Proof. vm_compute. repeat split. Qed.

(* ================================================================= *)
(** * Further properties *)

(** ** The other three statements *)

Lemma in_select_order_by {A : Type} (leb : string -> string -> bool) (key : A -> string)
  (sel : A -> list value) (p : A -> bool) (l : list A) (row : list value) :
  In row (map sel (Sql.order_by leb key (filter p l))) <->
  exists r, In r l /\ p r = true /\ row = sel r.
Proof.
  rewrite in_map_iff. split.
  - intros [r [<- H]]. apply order_by_in, filter_In in H as [Hin Hp]. now exists r.
  - intros (r & Hin & Hp & ->). exists r. split; [reflexivity|].
    apply order_by_in, filter_In. now split.
Qed.

Lemma sorted_select_order_by {A : Type} (leb : string -> string -> bool) (key : A -> string)
  (sel : A -> list value) (l : list A) :
  (forall a b, leb a b = true \/ leb b a = true) ->
  (forall r, first_column (sel r) = key r) ->
  Sorted (fun r1 r2 => leb (first_column r1) (first_column r2) = true)
    (map sel (Sql.order_by leb key l)).
Proof.
  intros Htotal Hkey.
  apply sorted_map with (R := fun x y : A => leb (key x) (key y) = true).
  - intros a b H. now rewrite !Hkey.
  - now apply order_by_sorted.
Qed.

Lemma overdue_processes_where_true (db : database) (t : Trigger) (st : Scheduled_Trigger) :
  overdue_processes_where db (t, st) = true <->
  exists next, st_next_run st = Some next /\ dt_ltb next (GETDATE db) = true.
Proof.
  unfold overdue_processes_where, Sql.lt, Sql.holds. simpl.
  destruct (st_next_run st) as [n|]; split.
  - intros H. exists n. split; [reflexivity|]. now destruct (dt_ltb n (GETDATE db)).
  - intros (n' & E & H). injection E as <-. now rewrite H.
  - discriminate.
  - intros (n' & E & _). discriminate.
Qed.



(** X2: the status statement yields one tuple, and only one, for each trigger
    joined to its schedule that has run at least once (last_run not NULL),
    whatever its next run, ordered by trigger name, under the columns
    trigger_name, process_status, next_run, last_run; a trigger that never
    ran, or has no schedule row, is not listed. *)
Theorem process_status_query_meaning (db : database) :
  (forall a b, collation_leb db a b = true \/ collation_leb db b a = true) ->
  map fst (description (process_status_query db))
    = ["trigger_name"; "process_status"; "next_run"; "last_run"]
  /\ (forall row,
        In row (fetchall (process_status_query db)) <->
        exists t st last,
          In t (Triggers db) /\ In st (Scheduled_Triggers db) /\ t_id t = st_id st
          /\ t_last_run t = Some last
          /\ row = [VStr (t_trigger_name t); VStr (t_process_status t);
                    Sql.datetime_value (st_next_run st); VDatetime last])
  /\ Sorted (fun r1 r2 => collation_leb db (first_column r1) (first_column r2) = true)
       (fetchall (process_status_query db))
  /\ Permutation (fetchall (process_status_query db))
       (map (fun r : Trigger * Scheduled_Trigger =>
               [VStr (t_trigger_name (fst r)); VStr (t_process_status (fst r));
                Sql.datetime_value (st_next_run (snd r));
                Sql.datetime_value (t_last_run (fst r))])
          (filter process_status_where
             (Sql.join_on_id (Triggers db) (Scheduled_Triggers db))))
  /\ length (fetchall (process_status_query db))
     = length (filter process_status_where
                 (Sql.join_on_id (Triggers db) (Scheduled_Triggers db))).
Proof.
  intros Htotal. split; [reflexivity|]. split; [|split; [|split]].
  - intros row. simpl. rewrite in_select_order_by. split.
    + intros ([t st] & Hj & Hw & ->). apply in_join_on_id in Hj as (Ht & Hst & Hid).
      unfold process_status_where in Hw. simpl in Hw.
      destruct (t_last_run t) as [l|] eqn:El; [|discriminate].
      exists t, st, l. simpl. rewrite El. simpl. repeat split; assumption.
    + intros (t & st & l & Ht & Hst & Hid & Hl & ->).
      exists (t, st). split; [now apply in_join_on_id|]. split.
      * unfold process_status_where. simpl. now rewrite Hl.
      * simpl. now rewrite Hl.
  - simpl. apply sorted_select_order_by; [exact Htotal | reflexivity].
  - simpl. apply Permutation_map, order_by_perm.
  - simpl. rewrite length_map. apply Permutation_length, order_by_perm.
Qed.

Lemma process_status_query_meaning_witness :
  (forall a b, collation_leb Sample.db a b = true \/ collation_leb Sample.db b a = true)
  /\ map first_column (fetchall (process_status_query Sample.db)) = ["T1"; "T2"; "T4"]
  /\ Sorted (fun r1 r2 =>
               collation_leb Sample.db (first_column r1) (first_column r2) = true)
       (fetchall (process_status_query Sample.db))
  /\ length (fetchall (process_status_query Sample.db))
     = length (filter process_status_where
                 (Sql.join_on_id (Triggers Sample.db) (Scheduled_Triggers Sample.db))).
Proof.
  split; [exact binary_leb_total|]. split; [reflexivity|].
  destruct (process_status_query_meaning Sample.db binary_leb_total)
    as (_ & _ & Hsorted & _ & Hlen).
  split; [exact Hsorted | exact Hlen].
Defined.

(** X3: the failures statement reads the trigger table alone: it yields one
    tuple, and only one, for each trigger whose status the server's [=] holds
    equal to Failed and whose last run is strictly after the server's clock
    moved back seven days, with or without a schedule row, ordered by trigger
    name, under the columns trigger_name, process_name, last_run,
    process_status; the status column shows the status as stored. *)
Theorem process_failure_query_meaning (db : database) :
  (forall a b, collation_leb db a b = true \/ collation_leb db b a = true) ->
  map fst (description (process_failure_query db))
    = ["trigger_name"; "process_name"; "last_run"; "process_status"]
  /\ (forall row,
        In row (fetchall (process_failure_query db)) <->
        exists t last,
          In t (Triggers db)
          /\ collation_eqb db (t_process_status t) "Failed" = true
          /\ t_last_run t = Some last
          /\ dt_ltb (DATEADD_day db (-7) (GETDATE db)) last = true
          /\ row = [VStr (t_trigger_name t); VStr (t_process_name t);
                    VDatetime last; VStr (t_process_status t)])
  /\ Sorted (fun r1 r2 => collation_leb db (first_column r1) (first_column r2) = true)
       (fetchall (process_failure_query db))
  /\ Permutation (fetchall (process_failure_query db))
       (map (fun t : Trigger =>
               [VStr (t_trigger_name t); VStr (t_process_name t);
                Sql.datetime_value (t_last_run t); VStr (t_process_status t)])
          (filter (process_failure_where db) (Triggers db)))
  /\ length (fetchall (process_failure_query db))
     = length (filter (process_failure_where db) (Triggers db)).
Proof.
  intros Htotal. split; [reflexivity|]. split; [|split; [|split]].
  - intros row. simpl. rewrite in_select_order_by. split.
    + intros (t & Ht & Hw & ->). unfold process_failure_where in Hw.
      apply andb_true_iff in Hw as [Hs Hl].
      unfold Sql.gt, Sql.lt, Sql.holds in Hl.
      destruct (t_last_run t) as [l|] eqn:El; [|discriminate].
      exists t, l. simpl.
      destruct (dt_ltb (DATEADD_day db (-7) (GETDATE db)) l) eqn:E; [|discriminate].
      repeat split; assumption.
    + intros (t & l & Ht & Hs & Hl & Hlt & ->). exists t. split; [exact Ht|]. split.
      * unfold process_failure_where, Sql.gt, Sql.lt, Sql.holds.
        rewrite Hs, Hl, Hlt. reflexivity.
      * now rewrite Hl.
  - simpl. apply sorted_select_order_by; [exact Htotal | reflexivity].
  - simpl. apply Permutation_map, order_by_perm.
  - simpl. rewrite length_map. apply Permutation_length, order_by_perm.
Qed.

Lemma process_failure_query_meaning_witness :
  (forall a b,
     collation_leb More.capitals_db a b = true \/ collation_leb More.capitals_db b a = true)
  /\ fetchall (process_failure_query More.capitals_db)
     = [[VStr "Loud"; VStr "P9"; VDatetime (Sample.dt 2024 1 9 0 0); VStr "FAILED"]]
  /\ Sorted (fun r1 r2 =>
               collation_leb More.capitals_db (first_column r1) (first_column r2) = true)
       (fetchall (process_failure_query More.capitals_db))
  /\ length (fetchall (process_failure_query More.capitals_db))
     = length (filter (process_failure_where More.capitals_db) (Triggers More.capitals_db)).
Proof.
  split; [exact binary_leb_total|]. split; [reflexivity|].
  destruct (process_failure_query_meaning More.capitals_db binary_leb_total)
    as (_ & _ & Hsorted & _ & Hlen).
  split; [exact Hsorted | exact Hlen].
Defined.

(** ** Missed runs against overdue processes *)

Lemma missed_runs_are_overdue_helper (db : database) (name process last next : value) :
  In [name; process; last; next] (fetchall (missed_runs_query db)) ->
  In [name; process; next; last] (fetchall (overdue_processes_query db)).
Proof.
  simpl. unfold missed_runs_rows. rewrite !in_select_order_by.
  intros ([t st] & Hj & Hw & E). exists (t, st). split; [exact Hj|].
  apply missed_runs_where_true in Hw as (l & n & Hl & Hn & _ & Hlt).
  unfold missed_runs_select in E. simpl in *. injection E as -> -> -> ->. split.
  - apply overdue_processes_where_true. now exists n.
  - reflexivity.
Qed.

(** X4: on one database state every tuple of the missed-runs statement has
    its counterpart in the overdue statement (same trigger and process, the
    two timestamps in the other order): a missed run is always overdue. *)
Theorem missed_runs_are_overdue (db : database) (name process last next : value) :
  In [name; process; last; next] (fetchall (missed_runs_query db)) ->
  In [name; process; next; last] (fetchall (overdue_processes_query db)).
Proof. apply missed_runs_are_overdue_helper. Qed.

Lemma missed_runs_are_overdue_witness :
  In [VStr "T1"; VStr "P1"; VDatetime (Sample.dt 2024 1 1 0 0);
      VDatetime (Sample.dt 2024 1 2 0 0)] (fetchall (missed_runs_query Sample.db))
  /\ In [VStr "T1"; VStr "P1"; VDatetime (Sample.dt 2024 1 2 0 0);
         VDatetime (Sample.dt 2024 1 1 0 0)] (fetchall (overdue_processes_query Sample.db)).
Proof.
  assert (H : In [VStr "T1"; VStr "P1"; VDatetime (Sample.dt 2024 1 1 0 0);
                  VDatetime (Sample.dt 2024 1 2 0 0)]
                (fetchall (missed_runs_query Sample.db))) by (left; reflexivity).
  split; [exact H|]. exact (missed_runs_are_overdue Sample.db _ _ _ _ H).
Defined.

Lemma fetched_nil (q : query) (db : database) :
  fetched q db = [] <-> fetchall (q db) = [].
Proof.
  unfold fetched, rows_as_dicts. destruct (fetchall (q db)); simpl; split;
    intros H; try reflexivity; discriminate.
Qed.

Lemma missed_rows_have_four_cells (db : database) (row : list value) :
  In row (fetchall (missed_runs_query db)) -> exists a b c d, row = [a; b; c; d].
Proof.
  simpl. intros H. apply in_map_iff in H as [r [<- _]]. unfold missed_runs_select.
  now eexists _, _, _, _.
Qed.

(** X5: when the missed-runs and the overdue statements see the same database
    state, the alert flag is decided by the overdue result alone: it is true
    exactly when some process is overdue, whatever the failures and the
    status results are. *)
Theorem alert_on_one_state_is_overdue (db db2 db3 : database) :
  alert (bundle_of db db db2 db3) = list_bool (fetched overdue_processes_query db)
  /\ (alert (bundle_of db db db2 db3) = true <->
      fetchall (overdue_processes_query db) <> []).
Proof.
  assert (E : alert (bundle_of db db db2 db3)
              = list_bool (fetched overdue_processes_query db)).
  { unfold alert. rewrite list_bool_or. cbn [missed overdue bundle_of].
    destruct (fetched missed_runs_query db) as [|d ds] eqn:Em; [reflexivity|].
    destruct (fetched overdue_processes_query db) as [|o os] eqn:Eo; [|reflexivity].
    exfalso. apply fetched_nil in Eo.
    destruct (fetchall (missed_runs_query db)) as [|row rows] eqn:Er.
    - assert (X : fetched missed_runs_query db = []) by now apply fetched_nil.
      rewrite X in Em. discriminate.
    - destruct (missed_rows_have_four_cells db row) as (a & b & c & d0 & ->);
        [rewrite Er; now left|].
      assert (Hin : In [a; b; c; d0] (fetchall (missed_runs_query db)))
        by (rewrite Er; now left).
      apply missed_runs_are_overdue_helper in Hin. rewrite Eo in Hin. contradiction. }
  split; [exact E|]. rewrite E.
  destruct (fetched overdue_processes_query db) as [|o os] eqn:Eo.
  - apply fetched_nil in Eo. rewrite Eo. cbn [list_bool].
    split; [discriminate | intros H; now elim H].
  - cbn [list_bool]. split; [|reflexivity]. intros _ H.
    apply (proj2 (fetched_nil overdue_processes_query db)) in H. rewrite H in Eo.
    discriminate.
Qed.

(** ** The rows [fetch_data] builds *)

Lemma set_fresh (k : string) (v : value) (d : pydict) :
  ~ In k (Dict.keys d) -> Dict.set k v d = (d ++ [(k, v)])%list.
Proof.
  induction d as [|[k' v'] d IH]; simpl; intros H; [reflexivity|].
  destruct (String.eqb_spec k k') as [->|Hne]; [elim H; now left|].
  rewrite IH; [reflexivity|]. intros Hin. apply H. now right.
Qed.

Lemma fold_set_nodup (pairs acc : pydict) :
  NoDup (Dict.keys acc ++ map fst pairs) ->
  fold_left (fun d kv => Dict.set (fst kv) (snd kv) d) pairs acc = (acc ++ pairs)%list.
Proof.
  revert acc. induction pairs as [|[k v] pairs IH]; intros acc H; simpl.
  - now rewrite app_nil_r.
  - simpl in H. rewrite set_fresh.
    + rewrite IH; [now rewrite <- app_assoc|].
      unfold Dict.keys in *. rewrite map_app, <- app_assoc. exact H.
    + apply NoDup_remove_2 in H. intros Hin. apply H, in_or_app. now left.
Qed.

Lemma of_pairs_nodup (pairs : pydict) :
  NoDup (map fst pairs) -> Dict.of_pairs pairs = pairs.
Proof. intros H. unfold Dict.of_pairs. now rewrite fold_set_nodup. Qed.

Lemma map_fst_zip {A B : Type} (xs : list A) (ys : list B) :
  length xs = length ys -> map fst (zip xs ys) = xs.
Proof.
  unfold zip. revert ys. induction xs as [|x xs IH]; intros [|y ys] H; simpl in *;
    try discriminate; [reflexivity|]. f_equal. apply IH. lia.
Qed.

Lemma map_snd_zip {A B : Type} (xs : list A) (ys : list B) :
  length xs = length ys -> map snd (zip xs ys) = ys.
Proof.
  unfold zip. revert ys. induction xs as [|x xs IH]; intros [|y ys] H; simpl in *;
    try discriminate; [reflexivity|]. f_equal. apply IH. lia.
Qed.

Lemma dict_get_zip (columns : list string) (row : list value) (i : nat) (k : string)
  (v : value) :
  NoDup columns -> nth_error columns i = Some k -> nth_error row i = Some v ->
  dict_get (zip columns row) k = Some v.
Proof.
  unfold dict_get, zip. revert row i.
  induction columns as [|c columns IH]; intros [|y row] [|i] Hnd Hk Hv; simpl in *;
    try discriminate.
  - injection Hk as ->. injection Hv as ->. now rewrite String.eqb_refl.
  - apply NoDup_cons_iff in Hnd as [Hc Hnd].
    destruct (String.eqb_spec c k) as [->|Hne].
    + elim Hc. now apply nth_error_In in Hk.
    + now apply (IH row i).
Qed.

(** X6: for a statement whose column names are distinct, each fetched row is
    the tuple read back under those names: its keys are the columns in order,
    its values are the tuple, and looking up the i-th column gives the i-th
    value. *)
Theorem fetched_rows_round_trip (columns : list string) (results : list (list value)) :
  NoDup columns ->
  (forall row, In row results -> length row = length columns) ->
  map Dict.values (rows_as_dicts columns results) = results
  /\ (forall d, In d (rows_as_dicts columns results) -> Dict.keys d = columns)
  /\ (forall row i k v,
        In row results -> nth_error columns i = Some k -> nth_error row i = Some v ->
        dict_get (Dict.of_pairs (zip columns row)) k = Some v).
Proof.
  intros Hnd Hlen.
  assert (E : forall row, In row results -> Dict.of_pairs (zip columns row) = zip columns row).
  { intros row Hin. apply of_pairs_nodup. rewrite map_fst_zip; [exact Hnd|].
    symmetry. now apply Hlen. }
  split; [|split].
  - unfold rows_as_dicts. rewrite map_map. rewrite <- (map_id results) at 2.
    apply map_ext_in. intros row Hin. rewrite (E row Hin). unfold Dict.values.
    apply map_snd_zip. symmetry. now apply Hlen.
  - intros d Hd. unfold rows_as_dicts in Hd. apply in_map_iff in Hd as [row [<- Hin]].
    rewrite (E row Hin). unfold Dict.keys. apply map_fst_zip. symmetry. now apply Hlen.
  - intros row i k v Hin Hk Hv. rewrite (E row Hin). now apply (dict_get_zip _ _ i).
Qed.

Lemma fetched_rows_round_trip_witness :
  NoDup ["trigger_name"; "process_name"]
  /\ (forall row, In row [[VStr "T1"; VStr "P1"]; [VStr "T2"; VNone]] ->
                  length row = length ["trigger_name"; "process_name"])
  /\ map Dict.values
       (rows_as_dicts ["trigger_name"; "process_name"]
          [[VStr "T1"; VStr "P1"]; [VStr "T2"; VNone]])
     = [[VStr "T1"; VStr "P1"]; [VStr "T2"; VNone]].
Proof.
  assert (Hnd : NoDup ["trigger_name"; "process_name"]) by literal_nodup.
  assert (Hlen : forall row, In row [[VStr "T1"; VStr "P1"]; [VStr "T2"; VNone]] ->
                             length row = length ["trigger_name"; "process_name"])
    by (intros row [<-|[<-|[]]]; reflexivity).
  split; [exact Hnd|]. split; [exact Hlen|].
  exact (proj1 (fetched_rows_round_trip _ _ Hnd Hlen)).
Defined.

Lemma dict_get_set (k k' : string) (v : value) (d : pydict) :
  dict_get (Dict.set k v d) k' = if String.eqb k k' then Some v else dict_get d k'.
Proof.
  unfold dict_get. induction d as [|[k0 v0] d IH]; simpl.
  - now destruct (String.eqb k k').
  - destruct (String.eqb_spec k k0) as [->|Hne]; simpl.
    + now destruct (String.eqb k0 k').
    + destruct (String.eqb_spec k0 k') as [->|Hne'].
      * destruct (String.eqb_spec k k'); [now elim Hne|reflexivity].
      * exact IH.
Qed.

Lemma dict_get_app (d1 d2 : pydict) (k : string) :
  dict_get (d1 ++ d2)%list k =
  match dict_get d1 k with
  | Some v => Some v
  | None => dict_get d2 k
  end.
Proof.
  unfold dict_get. induction d1 as [|[k0 v0] d1 IH]; simpl; [reflexivity|].
  destruct (String.eqb k0 k); [reflexivity | exact IH].
Qed.

Lemma dict_get_fold (pairs acc : pydict) (k : string) :
  dict_get (fold_left (fun d kv => Dict.set (fst kv) (snd kv) d) pairs acc) k =
  match dict_get (rev pairs) k with
  | Some v => Some v
  | None => dict_get acc k
  end.
Proof.
  revert acc. induction pairs as [|[k0 v0] pairs IH]; intros acc; simpl; [reflexivity|].
  rewrite IH, dict_get_app, dict_get_set. simpl.
  destruct (dict_get (rev pairs) k); [reflexivity|].
  unfold dict_get. simpl. now destruct (String.eqb k0 k).
Qed.

Lemma length_set (k : string) (v : value) (d : pydict) :
  length (Dict.set k v d) <= S (length d).
Proof.
  induction d as [|[k' v'] d IH]; simpl; [lia|].
  destruct (String.eqb k k'); simpl; lia.
Qed.

Lemma length_fold_set (pairs acc : pydict) :
  length (fold_left (fun d kv => Dict.set (fst kv) (snd kv) d) pairs acc)
  <= length acc + length pairs.
Proof.
  revert acc. induction pairs as [|kv pairs IH]; intros acc; simpl; [lia|].
  specialize (IH (Dict.set (fst kv) (snd kv) acc)).
  pose proof (length_set (fst kv) (snd kv) acc). lia.
Qed.

(** X7: whatever the column names and the tuple, a fetched row has each name
    once; under a name that occurs several times it holds the value of the
    last such column, and it has at most as many entries as the shorter of
    the two lists. *)
Theorem fetched_row_keeps_last_duplicate (columns : list string) (row : list value)
  (k : string) :
  Dict.wf (Dict.of_pairs (zip columns row))
  /\ dict_get (Dict.of_pairs (zip columns row)) k = dict_get (rev (zip columns row)) k
  /\ length (Dict.of_pairs (zip columns row)) <= Nat.min (length columns) (length row).
Proof.
  split; [apply of_pairs_wf|]. split.
  - unfold Dict.of_pairs. rewrite dict_get_fold.
    now destruct (dict_get (rev (zip columns row)) k).
  - unfold Dict.of_pairs. pose proof (length_fold_set (zip columns row) []) as H.
    unfold zip in *. rewrite length_combine in H. exact H.
Qed.

Example duplicate_column_names :
  Dict.of_pairs (zip ["id"; "name"; "id"] [VInt 1; VStr "T1"; VInt 9])
  = [("id", VInt 9); ("name", VStr "T1")].
Proof. reflexivity. Qed.

Lemma keys_fold (pairs acc : pydict) :
  Dict.keys (fold_left (fun d kv => Dict.set (fst kv) (snd kv) d) pairs acc) =
  fold_left (fun ks k => if in_dec string_dec k ks then ks else (ks ++ [k])%list)
    (map fst pairs) (Dict.keys acc).
Proof.
  revert acc. induction pairs as [|kv pairs IH]; intros acc; simpl; [reflexivity|].
  now rewrite IH, keys_set.
Qed.

Lemma keys_of_pairs_ext (p1 p2 : pydict) :
  map fst p1 = map fst p2 -> Dict.keys (Dict.of_pairs p1) = Dict.keys (Dict.of_pairs p2).
Proof. intros H. unfold Dict.of_pairs. now rewrite !keys_fold, H. Qed.

Lemma map_fst_zip_length {A B : Type} (xs : list A) (ys ys' : list B) :
  length ys = length ys' -> map fst (zip xs ys) = map fst (zip xs ys').
Proof.
  unfold zip. revert ys ys'.
  induction xs as [|x xs IH]; intros [|y ys] [|y' ys'] H; simpl in *;
    try discriminate; try reflexivity.
  f_equal. apply IH. lia.
Qed.

Lemma rows_as_dicts_same_columns (columns : list string) (results : list (list value)) :
  (forall r1 r2, In r1 results -> In r2 results -> length r1 = length r2) ->
  same_columns (rows_as_dicts columns results) = true.
Proof.
  intros H. destruct results as [|r0 rest]; [reflexivity|].
  unfold rows_as_dicts. simpl. apply forallb_forall. intros d Hd.
  apply in_map_iff in Hd as [r [<- Hr]].
  destruct (list_eq_dec string_dec _ _) as [_|Hne]; [reflexivity|].
  elim Hne. apply keys_of_pairs_ext, map_fst_zip_length, H; simpl; auto.
Qed.

(** X8: when the tuples of a result all have the same length, the rows
    [fetch_data] makes of them all have the same keys in the same order, also
    when column names repeat: a result set with mismatched columns cannot come
    from one statement. *)
Theorem fetched_rows_share_columns (columns : list string) (results : list (list value)) :
  (forall r1 r2, In r1 results -> In r2 results -> length r1 = length r2) ->
  same_columns (rows_as_dicts columns results) = true.
Proof. apply rows_as_dicts_same_columns. Qed.

Lemma fetched_rows_share_columns_witness :
  (forall r1 r2,
     In r1 [[VInt 1; VStr "T1"; VInt 9]; [VInt 2; VNone; VInt 8]] ->
     In r2 [[VInt 1; VStr "T1"; VInt 9]; [VInt 2; VNone; VInt 8]] ->
     length r1 = length r2)
  /\ same_columns
       (rows_as_dicts ["id"; "name"; "id"]
          [[VInt 1; VStr "T1"; VInt 9]; [VInt 2; VNone; VInt 8]]) = true.
Proof.
  assert (H : forall r1 r2,
            In r1 [[VInt 1; VStr "T1"; VInt 9]; [VInt 2; VNone; VInt 8]] ->
            In r2 [[VInt 1; VStr "T1"; VInt 9]; [VInt 2; VNone; VInt 8]] ->
            length r1 = length r2)
    by (intros r1 r2 [<-|[<-|[]]] [<-|[<-|[]]]; reflexivity).
  split; [exact H|]. exact (fetched_rows_share_columns _ _ H).
Defined.

Lemma query_rows_have_four_cells (db : database) (row : list value) :
  In row (fetchall (missed_runs_query db)) \/ In row (fetchall (overdue_processes_query db))
  \/ In row (fetchall (process_failure_query db))
  \/ In row (fetchall (process_status_query db)) ->
  length row = 4.
Proof.
  simpl. intros [H|[H|[H|H]]]; apply in_map_iff in H as [r [<- _]]; reflexivity.
Qed.

(** X9: each of the four result sets a report is rendered from has four
    distinct keys per row and the same keys in every row, whatever the four
    database states are: the renderer is never handed mismatched rows by
    [generate_html_report]. *)
Theorem bundle_rows_share_columns (db0 db1 db2 db3 : database) :
  let b := bundle_of db0 db1 db2 db3 in
  same_columns (missed b) = true /\ same_columns (overdue b) = true
  /\ same_columns (failed b) = true /\ same_columns (status b) = true
  /\ Forall (fun d => Dict.keys d = ["trigger_name"; "process_name"; "last_run"; "next_run"])
       (missed b)
  /\ Forall (fun d => Dict.keys d = ["trigger_name"; "process_name"; "next_run"; "last_run"])
       (overdue b)
  /\ Forall (fun d => Dict.keys d
                      = ["trigger_name"; "process_name"; "last_run"; "process_status"])
       (failed b)
  /\ Forall (fun d => Dict.keys d
                      = ["trigger_name"; "process_status"; "next_run"; "last_run"])
       (status b).
Proof.
  cbv zeta. unfold bundle_of, fetched. cbn [missed overdue failed status].
  assert (Hsame : forall (q : query) (db : database),
            (forall r, In r (fetchall (q db)) -> length r = 4) ->
            same_columns (rows_as_dicts (map fst (description (q db))) (fetchall (q db)))
            = true).
  { intros q db H. apply rows_as_dicts_same_columns. intros r1 r2 H1 H2.
    now rewrite (H r1 H1), (H r2 H2). }
  split; [apply Hsame; intros r H; apply (query_rows_have_four_cells db0); tauto|].
  split; [apply Hsame; intros r H; apply (query_rows_have_four_cells db1); tauto|].
  split; [apply Hsame; intros r H; apply (query_rows_have_four_cells db2); tauto|].
  split; [apply Hsame; intros r H; apply (query_rows_have_four_cells db3); tauto|].
  repeat split;
    apply Forall_forall; intros d Hd; unfold rows_as_dicts in Hd; simpl in Hd;
    rewrite map_map in Hd; apply in_map_iff in Hd as [r [<- _]]; reflexivity.
Qed.

(** ** Connections made and closed *)

Lemma fetch_step_world {B : Type} (self : ReportGenerator) (q : query)
  (k : list pydict -> M B) (w : world) :
  has_connection_string (orchestrator_connection self) ->
  snd (bind (fetch_data self q) k w) =
  match server w (attempts w) with
  | Answers db => snd (k (fetched q db) (fst (fetch_world w)))
  | _ => fst (fetch_world w)
  end.
Proof.
  intros [c Hc]. rewrite bind_eq, fetch_data_eq, Hc. unfold fetch_world. cbv zeta.
  destruct (server w (attempts w)); reflexivity.
Qed.

Lemma fetches_world_S (k : nat) (w : world) :
  fetches_world (S k) w =
  match server w (attempts w) with
  | Answers _ => fetches_world k (fst (fetch_world w))
  | _ => fst (fetch_world w)
  end.
Proof.
  cbn [fetches_world]. unfold fetch_world. cbv zeta.
  destruct (server w (attempts w)); reflexivity.
Qed.

Lemma generate_html_report_world (self : ReportGenerator) (w : world) :
  has_connection_string (orchestrator_connection self) ->
  snd (generate_html_report self w) = fetches_world 4 w.
Proof.
  intros Hc.
  unfold generate_html_report, missed_runs_report, overdue_processes_report,
    process_failure_report, process_status_report.
  rewrite (fetch_step_world self _ _ w Hc), fetches_world_S.
  destruct (server w (attempts w)) as [| |db0]; try reflexivity.
  cbv beta. rewrite (fetch_step_world self _ _ _ Hc), fetches_world_S.
  destruct (server _ _) as [| |db1]; try reflexivity.
  cbv beta. rewrite (fetch_step_world self _ _ _ Hc), fetches_world_S.
  destruct (server _ _) as [| |db2]; try reflexivity.
  cbv beta. rewrite (fetch_step_world self _ _ _ Hc), fetches_world_S.
  destruct (server _ _) as [| |db3]; try reflexivity.
  cbv beta.
  destruct (convert_to_html_table_call_fetched self db0) as (-> & _).
  destruct (convert_to_html_table_call_fetched self db1) as (_ & -> & _).
  destruct (convert_to_html_table_call_fetched self db2) as (_ & _ & -> & _).
  destruct (convert_to_html_table_call_fetched self db3) as (_ & _ & _ & ->).
  reflexivity.
Qed.

Lemma fetch_world_facts (w : world) :
  attempts (fst (fetch_world w)) = S (attempts w)
  /\ server (fst (fetch_world w)) = server w
  /\ snd (fetch_world w) = is_answer (server w (attempts w))
  /\ (connections_known w -> connections_known (fst (fetch_world w)))
  /\ (connections_known w -> snd (fetch_world w) = true ->
      open_connections (fst (fetch_world w)) = open_connections w)
  /\ (server w (attempts w) = ConnectFails ->
      open_connections (fst (fetch_world w)) = open_connections w)
  /\ (server w (attempts w) = ExecuteFails ->
      open_connections (fst (fetch_world w)) = attempts w :: open_connections w).
Proof.
  unfold fetch_world, connections_known. cbv zeta.
  destruct (server w (attempts w)) as [| |db] eqn:E; cbn;
    repeat split; try reflexivity; try discriminate; intros H.
  - intros n Hn. apply H in Hn. lia.
  - intros n [<-|Hn]; [lia|]. apply H in Hn. lia.
  - intros n Hn. destruct (Nat.eq_dec (attempts w) (attempts w)) as [e|ne]; [|now elim ne].
    apply in_remove in Hn as [Hn _]. apply H in Hn. lia.
  - intros _. destruct (Nat.eq_dec (attempts w) (attempts w)) as [e|ne]; [|now elim ne].
    apply notin_remove. intros Hn. apply H in Hn. lia.
Qed.

Lemma fetches_world_all_answer (k : nat) (w : world) :
  connections_known w ->
  (forall j, j < k -> is_answer (server w (attempts w + j)) = true) ->
  open_connections (fetches_world k w) = open_connections w
  /\ attempts (fetches_world k w) = attempts w + k
  /\ connections_known (fetches_world k w).
Proof.
  revert w. induction k as [|k IH]; intros w Hk Hall; simpl.
  - now rewrite Nat.add_0_r.
  - destruct (fetch_world_facts w) as (Ha & Hs & Hok & Hkn & Hopen & _).
    assert (H0 : snd (fetch_world w) = true).
    { rewrite Hok. specialize (Hall 0). rewrite Nat.add_0_r in Hall. apply Hall. lia. }
    rewrite H0. destruct (IH (fst (fetch_world w))) as (I1 & I2 & I3).
    + now apply Hkn.
    + intros j Hj. rewrite Hs, Ha. replace (S (attempts w) + j) with (attempts w + S j) by lia.
      apply Hall. lia.
    + rewrite I1, I2, Ha, (Hopen Hk H0). repeat split; [lia | exact I3].
Qed.

Lemma fetches_world_first_failure (k i : nat) (w : world) :
  i < k -> first_failure w (attempts w) i ->
  attempts (fetches_world k w) = attempts w + S i
  /\ (connections_known w ->
      (server w (attempts w + i) = ConnectFails ->
       open_connections (fetches_world k w) = open_connections w)
      /\ (server w (attempts w + i) = ExecuteFails ->
          open_connections (fetches_world k w) = (attempts w + i) :: open_connections w)).
Proof.
  revert i w. induction k as [|k IH]; intros i w Hi [Hf Hbefore]; [lia|]. simpl.
  destruct (fetch_world_facts w) as (Ha & Hs & Hok & Hkn & Hopen & Hc & He).
  destruct i as [|i].
  - rewrite Nat.add_0_r in *. rewrite Hok, Hf. split; [lia|]. intros _. split; assumption.
  - assert (H0 : snd (fetch_world w) = true).
    { rewrite Hok. specialize (Hbefore 0). rewrite Nat.add_0_r in Hbefore.
      apply Hbefore. lia. }
    rewrite H0.
    destruct (IH i (fst (fetch_world w))) as [I1 I2].
    + lia.
    + split.
      * rewrite Hs, Ha. now replace (S (attempts w) + i) with (attempts w + S i) by lia.
      * intros j Hj. rewrite Hs, Ha.
        replace (S (attempts w) + j) with (attempts w + S j) by lia. apply Hbefore. lia.
    + rewrite I1, Ha. split; [lia|]. intros Hk.
      specialize (I2 (Hkn Hk)). rewrite Hs, Ha, (Hopen Hk H0) in I2.
      now replace (S (attempts w) + i) with (attempts w + S i) in I2 by lia.
Qed.

(** X10: a report that succeeds has made exactly four connections and closed
    each of them: the connections open afterwards are those open before. *)
Theorem report_closes_its_connections (self : ReportGenerator) (w w' : world)
  (r : string * bool) :
  connections_known w ->
  generate_html_report self w = (Ok r, w') ->
  open_connections w' = open_connections w
  /\ attempts w' = attempts w + 4
  /\ connections_known w'.
Proof.
  intros Hk H.
  destruct (has_connection_string_dec (orchestrator_connection self)) as [Hc|Hc];
    [|rewrite (generate_html_report_unconfigured self w Hc) in H; discriminate].
  pose proof (generate_html_report_world self w Hc) as Hw. rewrite H in Hw. cbn [snd] in Hw.
  subst w'. apply generate_html_report_ok_inv in H as (db0 & db1 & db2 & db3 & Hans & _).
  apply (fetches_world_all_answer 4 w); [exact Hk|].
  intros j Hj. apply (answers_from_is_answer w (attempts w) [db0; db1; db2; db3] j Hans).
  simpl. lia.
Qed.

Lemma report_closes_its_connections_witness :
  connections_known (More.leaky_world (fun _ => Answers Sample.db) Accepts)
  /\ exists r w',
       generate_html_report Sample.generator
         (More.leaky_world (fun _ => Answers Sample.db) Accepts) = (Ok r, w')
       /\ open_connections w' = [0]
       /\ attempts w' = 1 + 4
       /\ connections_known w'.
Proof.
  assert (Hk : connections_known (More.leaky_world (fun _ => Answers Sample.db) Accepts))
    by (intros n [<-|[]]; simpl; lia).
  split; [exact Hk|]. eexists. eexists. split.
  - vm_compute. reflexivity.
  - eapply (report_closes_its_connections Sample.generator
              (More.leaky_world (fun _ => Answers Sample.db) Accepts)); [exact Hk|].
    vm_compute. reflexivity.
Defined.

(** X11: a report stops at the first statement that fails: it raises
    [DatabaseError], no later statement is attempted, and of its own
    connections only the failing one can stay open, which it does exactly
    when the connection was made and the statement then failed. *)
Theorem report_stops_at_first_failure (self : ReportGenerator) (w : world) (i : nat) :
  has_connection_string (orchestrator_connection self) ->
  i < 4 ->
  first_failure w (attempts w) i ->
  fst (generate_html_report self w) = Raise DatabaseError
  /\ attempts (snd (generate_html_report self w)) = attempts w + S i
  /\ (connections_known w ->
      (server w (attempts w + i) = ConnectFails ->
       open_connections (snd (generate_html_report self w)) = open_connections w)
      /\ (server w (attempts w + i) = ExecuteFails ->
          open_connections (snd (generate_html_report self w))
          = (attempts w + i) :: open_connections w)).
Proof.
  intros Hc Hi Hf. split.
  - destruct Hf as [Hf _].
    destruct (generate_html_report_fails self w i Hc Hi Hf) as (w1 & -> & _). reflexivity.
  - rewrite (generate_html_report_world self w Hc).
    now apply fetches_world_first_failure.
Qed.

Lemma report_stops_at_first_failure_witness :
  let w := Sample.world0 More.third_refused Accepts in
  has_connection_string (orchestrator_connection Sample.generator)
  /\ 2 < 4
  /\ first_failure w (attempts w) 2
  /\ fst (generate_html_report Sample.generator w) = Raise DatabaseError
  /\ attempts (snd (generate_html_report Sample.generator w)) = attempts w + 3.
Proof.
  cbv zeta.
  assert (Hc : has_connection_string (orchestrator_connection Sample.generator))
    by (eexists; reflexivity).
  assert (H2 : 2 < 4) by lia.
  assert (Hf : first_failure (Sample.world0 More.third_refused Accepts)
                 (attempts (Sample.world0 More.third_refused Accepts)) 2).
  { split; [reflexivity|]. intros [|[|j]] Hj; try reflexivity. lia. }
  split; [exact Hc|]. split; [exact H2|]. split; [exact Hf|].
  destruct (report_stops_at_first_failure Sample.generator
              (Sample.world0 More.third_refused Accepts) 2 Hc H2 Hf) as (Hr & Ha & _).
  split; [exact Hr | exact Ha].
Defined.

(** ** What a report and a mail leave untouched *)

(** X12: making a report touches nothing but the database connections:
    whether it returns or raises, it sends no SMTP command, adds no message,
    prints nothing, logs nothing and leaves the SMTP sessions alone. *)
Theorem report_touches_only_the_database (self : ReportGenerator) (w : world) :
  let w' := snd (generate_html_report self w) in
  smtp_log w' = smtp_log w /\ outbox w' = outbox w /\ stdout w' = stdout w
  /\ trace_log w' = trace_log w /\ smtp_sessions w' = smtp_sessions w
  /\ attempts w <= attempts w' <= attempts w + 4.
Proof.
  cbv zeta. destruct (generate_html_report self w) as [[r|e] w'] eqn:E; cbn [snd].
  - apply generate_html_report_ok_inv in E as (db0 & db1 & db2 & db3 & _ & Ha & Hs & _).
    destruct Hs as (_ & _ & H3 & H4 & H5 & H6 & H7 & H8). repeat split; try assumption; lia.
  - pose proof (generate_html_report_raise_inv self w w' e E) as Hs.
    destruct Hs as (_ & _ & H3 & H4 & H5 & H6 & H7 & H8).
    repeat split; try assumption.
    + destruct (has_connection_string_dec (orchestrator_connection self)) as [Hc|Hc].
      * destruct (generate_html_report_cases self w Hc) as (w1 & _ & [Hok|Hfail]).
        -- destruct Hok as (? & ? & ? & ? & _ & _ & E'). rewrite E' in E. discriminate.
        -- pose proof (generate_html_report_world self w Hc) as Hw. rewrite E in Hw.
           cbn [snd] in Hw. subst w'. clear.
           cbn [fetches_world].
           repeat (match goal with
                   | |- context [snd (fetch_world ?x)] =>
                       pose proof (fetch_world_facts x) as (? & _);
                       destruct (snd (fetch_world x))
                   end); lia.
      * rewrite (generate_html_report_unconfigured self w Hc) in E. injection E as _ <-. lia.
    + destruct (has_connection_string_dec (orchestrator_connection self)) as [Hc|Hc].
      * pose proof (generate_html_report_world self w Hc) as Hw. rewrite E in Hw.
        cbn [snd] in Hw. subst w'. clear.
        cbn [fetches_world].
        repeat (match goal with
                | |- context [snd (fetch_world ?x)] =>
                    pose proof (fetch_world_facts x) as (? & _);
                    destruct (snd (fetch_world x))
                end); lia.
      * rewrite (generate_html_report_unconfigured self w Hc) in E. injection E as _ <-. lia.
Qed.

Lemma submit_facts (settings : email_settings_t) (msg : message) (w : world) :
  let r := submit settings msg w in
  attempts (snd r) = attempts w /\ open_connections (snd r) = open_connections w
  /\ server (snd r) = server w /\ trace_log (snd r) = trace_log w
  /\ smtp_sessions (snd r) = smtp_sessions w
  /\ match mail_server w with
     | Accepts =>
         fst r = (if quit_ok w then Ok tt else Raise MailTransportError)
         /\ outbox (snd r) = (outbox w ++ [msg])%list
         /\ stdout (snd r) = (stdout w ++ [("Email sent to " ++ to_email settings ++ ".")%string])%list
         /\ smtp_log (snd r) =
              (smtp_log w ++ [CONNECT (smtp_server settings) (smtp_port settings);
                              STARTTLS; SEND msg; QUIT])%list
     | ConnectRefused =>
         fst r = Raise MailTransportError /\ outbox (snd r) = outbox w
         /\ stdout (snd r) = stdout w
         /\ smtp_log (snd r) =
              (smtp_log w ++ [CONNECT (smtp_server settings) (smtp_port settings)])%list
     | StarttlsRejected =>
         fst r = Raise MailTransportError /\ outbox (snd r) = outbox w
         /\ stdout (snd r) = stdout w
         /\ smtp_log (snd r) =
              (smtp_log w ++ [CONNECT (smtp_server settings) (smtp_port settings);
                              STARTTLS; QUIT])%list
     | SendRejected =>
         fst r = Raise MailTransportError /\ outbox (snd r) = outbox w
         /\ stdout (snd r) = stdout w
         /\ smtp_log (snd r) =
              (smtp_log w ++ [CONNECT (smtp_server settings) (smtp_port settings);
                              STARTTLS; SEND msg; QUIT])%list
     end.
Proof.
  cbv zeta.
  unfold submit, with_, smtplib_SMTP, bind, starttls, send_message, print, smtp_exit, quit_ok.
  destruct (mail_server w) eqn:E; cbn; rewrite ?E; cbn; rewrite ?E; cbn;
    destruct (quit_reply w) as [code|]; try destruct (code =? 221)%nat; cbn;
    rewrite <- ?app_assoc; repeat split.
Qed.

Lemma generate_html_report_succeeds (self : ReportGenerator) (w : world)
  (db0 db1 db2 db3 : database) :
  has_connection_string (orchestrator_connection self) ->
  answers_from w (attempts w) [db0; db1; db2; db3] ->
  exists w',
    generate_html_report self w
    = (Ok (rendered (bundle_of db0 db1 db2 db3), alert (bundle_of db0 db1 db2 db3)), w')
    /\ same_outside_db w w' /\ attempts w' = attempts w + 4.
Proof.
  intros Hc Hans.
  destruct (generate_html_report_cases self w Hc) as (w1 & Hs & [Hok|Hfail]).
  - destruct Hok as (d0 & d1 & d2 & d3 & Hans' & Ha & E). exists w1.
    simpl in Hans, Hans'.
    destruct Hans as (A0 & A1 & A2 & A3 & _). destruct Hans' as (B0 & B1 & B2 & B3 & _).
    rewrite A0 in B0. rewrite A1 in B1. rewrite A2 in B2. rewrite A3 in B3.
    injection B0 as <-. injection B1 as <-. injection B2 as <-. injection B3 as <-.
    auto.
  - destruct Hfail as (i & Hi & Hf & _).
    apply (answers_from_is_answer _ _ _ i) in Hans; [congruence | simpl; lia].
Qed.

(** X13: [send_email] leaves no SMTP session open, on any way out: refused
    connection, rejected STARTTLS, rejected message, accepted message, or a
    report that failed before any session was opened. *)
Theorem send_email_releases_the_session (A : Type) (self : ReportGenerator) (h : A)
  (w : world) :
  smtp_sessions (snd (send_email self h w)) = smtp_sessions w.
Proof.
  rewrite send_email_eq.
  destruct (generate_html_report self w) as [[[html flag]|e] w1] eqn:E.
  - apply generate_html_report_ok_inv in E as (? & ? & ? & ? & _ & _ & Hs & _).
    destruct Hs as (_ & _ & H3 & _).
    destruct (submit_facts (email_settings self)
                (build_message (email_settings self) html flag) w1) as (_ & _ & _ & _ & H & _).
    now rewrite H.
  - apply generate_html_report_raise_inv in E. now destruct E as (_ & _ & H3 & _).
Qed.

(** X14: the line [Email sent to ...] is printed exactly when the message
    was accepted: either one message was added and that one line printed, or
    no message was added and nothing was printed.  A call that returns has
    sent and printed; a call that has sent and printed returns, unless QUIT is
    not answered 221, and then it raises [MailTransportError]. *)
Theorem email_sent_line_iff_sent (A : Type) (self : ReportGenerator) (h : A) (w : world) :
  let r := send_email self h w in
  ((exists msg, outbox (snd r) = (outbox w ++ [msg])%list)
   /\ stdout (snd r)
      = (stdout w
          ++ [("Email sent to " ++ to_email (email_settings self) ++ ".")%string])%list
   /\ fst r = (if quit_ok w then Ok tt else Raise MailTransportError))
  \/ (outbox (snd r) = outbox w /\ stdout (snd r) = stdout w
      /\ exists e, fst r = Raise e).
Proof.
  cbv zeta. rewrite send_email_eq.
  destruct (generate_html_report self w) as [[[html flag]|e] w1] eqn:E.
  - apply generate_html_report_ok_inv in E as (? & ? & ? & ? & _ & _ & Hs & _).
    destruct Hs as (_ & _ & _ & Ho & Hst & _ & _ & Hq).
    destruct (submit_facts (email_settings self)
                (build_message (email_settings self) html flag) w1)
      as (_ & _ & _ & _ & _ & H).
    destruct (mail_server w1); destruct H as (H1 & H2 & H3 & _);
      rewrite H1, H2, H3, Ho, Hst;
      try (right; split; [reflexivity | split; [reflexivity|]];
           now exists MailTransportError).
    left. split; [now eexists|]. split; [reflexivity|]. unfold quit_ok. now rewrite Hq.
  - apply generate_html_report_raise_inv in E. destruct E as (_ & _ & _ & Ho & Hst & _).
    right. split; [exact Ho|]. split; [exact Hst | now exists e].
Qed.

(** A server that takes the message and then answers QUIT with 421: the
    message is in the outbox, the line is printed, and the call raises. *)
Example sent_then_quit_refused :
  let r := send_email Sample.generator tt
             (More.quit_refused_world (fun _ => Answers Sample.db)) in
  fst r = Raise MailTransportError
  /\ length (outbox (snd r)) = 1
  /\ stdout (snd r) = ["Email sent to drift@example.org."]
  /\ smtp_sessions (snd r) = 0.
Proof. vm_compute. repeat split. Qed.



(** ** The run, end to end *)

Lemma dict_get_find (d : pydict) (k : string) :
  (dict_get d k = None -> find (fun kv => String.eqb (fst kv) k) d = None)
  /\ (forall v, dict_get d k = Some v ->
                exists kv, find (fun kv => String.eqb (fst kv) k) d = Some kv /\ snd kv = v).
Proof.
  unfold dict_get. destruct (find _ d) as [kv|]; split; try discriminate; try reflexivity.
  intros v H. injection H as <-. now exists kv.
Qed.

(** X16: when the arguments are not JSON, or lack [fromEmail] or [toEmail],
    the run raises before anything else happens: the trace line is written,
    no database connection is attempted, no SMTP command is sent. *)
Theorem process_rejects_bad_arguments
  (json_loads : string -> option pydict) (SMTP_SERVER SMTP_PORT : value)
  (oc : OrchestratorConnection) (w : world) :
  (json_loads (process_arguments oc) = None
   \/ exists args,
        json_loads (process_arguments oc) = Some args
        /\ (dict_get args "fromEmail" = None \/ dict_get args "toEmail" = None)) ->
  process json_loads SMTP_SERVER SMTP_PORT oc w
  = (Raise ConfigurationError, set_trace_log (trace_log w ++ ["Running process."]) w).
Proof.
  intros H. rewrite process_eq. cbv zeta.
  destruct H as [->|(args & -> & H)]; [reflexivity|].
  destruct H as [H|H]; apply dict_get_find in H.
  - now rewrite H.
  - rewrite H.
    now destruct (find (fun kv : string * value => String.eqb (fst kv) "fromEmail") args).
Qed.

Lemma process_rejects_bad_arguments_witness :
  let w := Sample.world0 (fun _ => Answers Sample.db) Accepts in
  (More.loads_no_recipient (process_arguments Sample.oc) = None
   \/ exists args,
        More.loads_no_recipient (process_arguments Sample.oc) = Some args
        /\ (dict_get args "fromEmail" = None \/ dict_get args "toEmail" = None))
  /\ process More.loads_no_recipient (VStr "smtp.example.org") (VInt 25) Sample.oc w
     = (Raise ConfigurationError, set_trace_log ["Running process."] w).
Proof.
  cbv zeta.
  assert (H : More.loads_no_recipient (process_arguments Sample.oc) = None
              \/ exists args,
                   More.loads_no_recipient (process_arguments Sample.oc) = Some args
                   /\ (dict_get args "fromEmail" = None \/ dict_get args "toEmail" = None)).
  { right. eexists. split; [reflexivity|]. right. reflexivity. }
  split; [exact H|].
  exact (process_rejects_bad_arguments More.loads_no_recipient (VStr "smtp.example.org")
           (VInt 25) Sample.oc _ H).
Defined.

Lemma send_email_trace {A : Type} (self : ReportGenerator) (h : A) (w : world) :
  trace_log (snd (send_email self h w)) = trace_log w.
Proof.
  rewrite send_email_eq.
  destruct (generate_html_report self w) as [[[html flag]|e] w1] eqn:E.
  - apply generate_html_report_ok_inv in E as (? & ? & ? & ? & _ & _ & Hs & _).
    destruct Hs as (_ & _ & _ & _ & _ & Ht & _).
    destruct (submit_facts (email_settings self)
                (build_message (email_settings self) html flag) w1) as (_ & _ & _ & H & _).
    now rewrite H.
  - apply generate_html_report_raise_inv in E. now destruct E as (_ & _ & _ & _ & _ & Ht & _).
Qed.

(** X17: every run, however it ends, adds exactly the one line
    [Running process.] to the trace log. *)
Theorem process_logs_one_trace_line
  (json_loads : string -> option pydict) (SMTP_SERVER SMTP_PORT : value)
  (oc : OrchestratorConnection) (w : world) :
  trace_log (snd (process json_loads SMTP_SERVER SMTP_PORT oc w))
  = (trace_log w ++ ["Running process."])%list.
Proof.
  rewrite process_eq. cbv zeta.
  destruct (json_loads (process_arguments oc)) as [args|]; [|reflexivity].
  destruct (find _ args) as [kf|]; [|reflexivity].
  destruct (find _ args) as [kt|]; [|reflexivity].
  rewrite bind_eq.
  match goal with |- context [generate_html_report ?rg ?w0] =>
    destruct (generate_html_report rg w0) as [[r|e] w1] eqn:E end.
  - rewrite send_email_trace.
    apply generate_html_report_ok_inv in E as (? & ? & ? & ? & _ & _ & Hs & _).
    now destruct Hs as (_ & _ & _ & _ & _ & Ht & _).
  - apply generate_html_report_raise_inv in E. now destruct E as (_ & _ & _ & _ & _ & Ht & _).
Qed.

Lemma answers_from_split (w : world) (n : nat) (l1 l2 : list database) :
  answers_from w n (l1 ++ l2) ->
  answers_from w n l1 /\ answers_from w (n + length l1) l2.
Proof.
  revert n. induction l1 as [|db l1 IH]; intros n; simpl.
  - rewrite Nat.add_0_r. auto.
  - intros [H0 H]. apply IH in H as [H1 H2].
    replace (n + S (length l1)) with (S n + length l1) by lia. auto.
Qed.

(** The run when everything is in place. *)
Lemma process_succeeds
  (json_loads : string -> option pydict) (SMTP_SERVER SMTP_PORT : value)
  (oc : OrchestratorConnection) (w : world) (args : pydict) (fromEmail toEmail : value)
  (db0 db1 db2 db3 db4 db5 db6 db7 : database) :
  json_loads (process_arguments oc) = Some args ->
  dict_get args "fromEmail" = Some fromEmail ->
  dict_get args "toEmail" = Some toEmail ->
  has_connection_string oc ->
  answers_from w (attempts w) [db0; db1; db2; db3; db4; db5; db6; db7] ->
  mail_server w = Accepts ->
  let run := process json_loads SMTP_SERVER SMTP_PORT oc w in
  let settings := settings_of fromEmail toEmail SMTP_SERVER SMTP_PORT in
  let msg := build_message settings (rendered (bundle_of db4 db5 db6 db7))
               (alert (bundle_of db4 db5 db6 db7)) in
  fst run = (if quit_ok w then Ok tt else Raise MailTransportError)
  /\ outbox (snd run) = (outbox w ++ [msg])%list
  /\ smtp_log (snd run) =
       (smtp_log w ++ [CONNECT (py_str SMTP_SERVER) (py_str SMTP_PORT);
                       STARTTLS; SEND msg; QUIT])%list
  /\ stdout (snd run) = (stdout w ++ [("Email sent to " ++ py_str toEmail ++ ".")%string])%list
  /\ attempts (snd run) = attempts w + 8.
Proof.
  intros Hj Hf Ht Hc Hans Hm. cbv zeta. rewrite process_eq. cbv zeta. rewrite Hj.
  apply dict_get_find in Hf as (kf & -> & <-). apply dict_get_find in Ht as (kt & -> & <-).
  set (w0 := set_trace_log (trace_log w ++ ["Running process."]) w).
  apply (answers_from_split w (attempts w) [db0; db1; db2; db3] [db4; db5; db6; db7])
    in Hans as [Hans1 Hans2].
  rewrite bind_eq.
  match goal with |- context [generate_html_report ?g w0] => set (rg := g) end.
  destruct (generate_html_report_succeeds rg w0 db0 db1 db2 db3 Hc Hans1)
    as (w1 & -> & Hs1 & Ha1).
  rewrite send_email_eq.
  assert (Hans2' : answers_from w1 (attempts w1) [db4; db5; db6; db7]).
  { destruct Hs1 as (Hsrv & _). rewrite Ha1.
    apply (answers_from_server w1 w0); [now rewrite Hsrv|]. exact Hans2. }
  destruct (generate_html_report_succeeds rg w1 db4 db5 db6 db7 Hc Hans2')
    as (w2 & -> & Hs2 & Ha2).
  pose proof (same_outside_db_trans w0 w1 w2 Hs1 Hs2) as Hs.
  destruct Hs as (_ & Hms & _ & Ho & Hst & _ & Hl & Hq).
  match goal with |- context [submit ?s ?m w2] =>
    destruct (submit_facts s m w2) as (Hatt & _ & _ & _ & _ & H) end.
  rewrite Hms in H. change (mail_server w0) with (mail_server w) in H. rewrite Hm in H.
  destruct H as (H1 & H2 & H3 & H4).
  rewrite H1, H2, H3, H4, Hatt, Ho, Hst, Hl, Ha2, Ha1.
  split; [unfold quit_ok; now rewrite Hq|].
  repeat split. simpl. lia.
Qed.

(** X18: with well-formed arguments, the connection string, eight answered
    statements and an accepting mail server, the run returns (or, when QUIT
    is not answered 221, raises [MailTransportError] at the very end) after
    eight connections, sends CONNECT to the configured host and port,
    STARTTLS, the message and QUIT, prints the confirmation, and the one
    message added goes from [fromEmail] to [toEmail] with the report of the
    second round as its only part. *)
Theorem process_sends_the_second_report
  (json_loads : string -> option pydict) (SMTP_SERVER SMTP_PORT : value)
  (oc : OrchestratorConnection) (w : world) (args : pydict) (fromEmail toEmail : value)
  (db0 db1 db2 db3 db4 db5 db6 db7 : database) :
  json_loads (process_arguments oc) = Some args ->
  dict_get args "fromEmail" = Some fromEmail ->
  dict_get args "toEmail" = Some toEmail ->
  has_connection_string oc ->
  answers_from w (attempts w) [db0; db1; db2; db3; db4; db5; db6; db7] ->
  mail_server w = Accepts ->
  let run := process json_loads SMTP_SERVER SMTP_PORT oc w in
  exists msg,
    fst run = (if quit_ok w then Ok tt else Raise MailTransportError)
    /\ outbox (snd run) = (outbox w ++ [msg])%list
    /\ smtp_log (snd run) =
         (smtp_log w ++ [CONNECT (py_str SMTP_SERVER) (py_str SMTP_PORT);
                         STARTTLS; SEND msg; QUIT])%list
    /\ stdout (snd run)
       = (stdout w ++ [("Email sent to " ++ py_str toEmail ++ ".")%string])%list
    /\ attempts (snd run) = attempts w + 8
    /\ get_header "From" msg = Some (py_str fromEmail)
    /\ get_header "To" msg = Some (py_str toEmail)
    /\ payload msg = [MIMEText (rendered (bundle_of db4 db5 db6 db7)) "html"].
Proof.
  intros Hj Hf Ht Hc Hans Hm. cbv zeta.
  destruct (process_succeeds json_loads SMTP_SERVER SMTP_PORT oc w args fromEmail toEmail
              db0 db1 db2 db3 db4 db5 db6 db7 Hj Hf Ht Hc Hans Hm)
    as (H1 & H2 & H3 & H4 & H5).
  eexists. split; [exact H1|]. split; [exact H2|]. split; [exact H3|].
  split; [exact H4|]. split; [exact H5|].
  destruct (alert (bundle_of db4 db5 db6 db7)); repeat split.
Qed.

Lemma process_sends_the_second_report_witness :
  let w := Sample.world0
             (fun n => if (n <? 4)%nat then Answers Sample.db else Answers Sample.quiet_db)
             Accepts in
  let run := process Sample.loads (VStr "smtp.example.org") (VInt 25) Sample.oc w in
  Sample.loads (process_arguments Sample.oc)
  = Some [("fromEmail", VStr "robot@example.org"); ("toEmail", VStr "drift@example.org")]
  /\ has_connection_string Sample.oc
  /\ mail_server w = Accepts
  /\ exists msg,
       fst run = Ok tt
       /\ outbox (snd run) = (outbox w ++ [msg])%list
       /\ smtp_log (snd run) =
            (smtp_log w ++ [CONNECT "smtp.example.org" "25"; STARTTLS; SEND msg; QUIT])%list
       /\ stdout (snd run) = (stdout w ++ ["Email sent to drift@example.org."])%list
       /\ attempts (snd run) = attempts w + 8
       /\ get_header "From" msg = Some "robot@example.org"
       /\ get_header "To" msg = Some "drift@example.org"
       /\ payload msg
          = [MIMEText (rendered (bundle_of Sample.quiet_db Sample.quiet_db
                                   Sample.quiet_db Sample.quiet_db)) "html"].
Proof.
  cbv zeta.
  assert (Hc : has_connection_string Sample.oc) by (eexists; reflexivity).
  split; [reflexivity|]. split; [exact Hc|]. split; [reflexivity|].
  apply (process_sends_the_second_report Sample.loads (VStr "smtp.example.org") (VInt 25)
           Sample.oc
           (Sample.world0
              (fun n => if (n <? 4)%nat then Answers Sample.db else Answers Sample.quiet_db)
              Accepts)
           [("fromEmail", VStr "robot@example.org"); ("toEmail", VStr "drift@example.org")]
           (VStr "robot@example.org") (VStr "drift@example.org")
           Sample.db Sample.db Sample.db Sample.db
           Sample.quiet_db Sample.quiet_db Sample.quiet_db Sample.quiet_db);
    try reflexivity; [exact Hc | simpl; repeat split].
Defined.

(** X19: the priority of the message sent is decided by the second round of
    statements alone: it carries X-Priority 1 and the warning subject exactly
    when the missed-runs or the overdue result of that round is non-empty;
    what the first round returned has no influence. *)
Theorem priority_follows_the_second_round
  (json_loads : string -> option pydict) (SMTP_SERVER SMTP_PORT : value)
  (oc : OrchestratorConnection) (w : world) (args : pydict) (fromEmail toEmail : value)
  (db0 db1 db2 db3 db4 db5 db6 db7 : database) :
  json_loads (process_arguments oc) = Some args ->
  dict_get args "fromEmail" = Some fromEmail ->
  dict_get args "toEmail" = Some toEmail ->
  has_connection_string oc ->
  answers_from w (attempts w) [db0; db1; db2; db3; db4; db5; db6; db7] ->
  mail_server w = Accepts ->
  exists msg,
    outbox (snd (process json_loads SMTP_SERVER SMTP_PORT oc w)) = (outbox w ++ [msg])%list
    /\ (get_header "X-Priority" msg = Some "1" <->
        fetched missed_runs_query db4 <> [] \/ fetched overdue_processes_query db5 <> [])
    /\ (get_header "Subject" msg = Some (base_subject ++ warning_suffix) <->
        fetched missed_runs_query db4 <> [] \/ fetched overdue_processes_query db5 <> [])
    /\ (get_header "Subject" msg = Some base_subject <->
        fetched missed_runs_query db4 = [] /\ fetched overdue_processes_query db5 = []).
Proof.
  intros Hj Hf Ht Hc Hans Hm.
  destruct (process_succeeds json_loads SMTP_SERVER SMTP_PORT oc w args fromEmail toEmail
              db0 db1 db2 db3 db4 db5 db6 db7 Hj Hf Ht Hc Hans Hm)
    as (_ & H2 & _).
  eexists. split; [exact H2|].
  pose proof (alert_iff (bundle_of db4 db5 db6 db7)) as Hiff.
  cbn [missed overdue bundle_of] in Hiff.
  destruct (alert (bundle_of db4 db5 db6 db7)).
  - assert (Hne : fetched missed_runs_query db4 <> []
                  \/ fetched overdue_processes_query db5 <> []) by now apply Hiff.
    split; [split; [intros _; exact Hne | reflexivity]|].
    split; [split; [intros _; exact Hne | reflexivity]|].
    split; [discriminate|]. intros [E1 E2]. destruct Hne as [X|X]; now elim X.
  - assert (Hno : ~ (fetched missed_runs_query db4 <> []
                     \/ fetched overdue_processes_query db5 <> [])).
    { intros X. apply Hiff in X. discriminate. }
    split; [split; [discriminate | intros X; now elim Hno]|].
    split; [split; [discriminate | intros X; now elim Hno]|].
    split; [intros _ | reflexivity].
    destruct (fetched missed_runs_query db4); [|elim Hno; left; discriminate].
    destruct (fetched overdue_processes_query db5); [|elim Hno; right; discriminate].
    now split.
Qed.

Lemma priority_follows_the_second_round_witness :
  let w := Sample.world0
             (fun n => if (n <? 4)%nat then Answers Sample.db else Answers Sample.quiet_db)
             Accepts in
  has_connection_string Sample.oc
  /\ mail_server w = Accepts
  /\ fetched missed_runs_query Sample.db <> []
  /\ exists msg,
       outbox (snd (process Sample.loads (VStr "smtp.example.org") (VInt 25) Sample.oc w))
       = (outbox w ++ [msg])%list
       /\ (get_header "Subject" msg = Some base_subject <->
           fetched missed_runs_query Sample.quiet_db = []
           /\ fetched overdue_processes_query Sample.quiet_db = []).
Proof.
  cbv zeta.
  assert (Hc : has_connection_string Sample.oc) by (eexists; reflexivity).
  split; [exact Hc|]. split; [reflexivity|]. split; [discriminate|].
  destruct (priority_follows_the_second_round Sample.loads (VStr "smtp.example.org")
              (VInt 25) Sample.oc
              (Sample.world0
                 (fun n => if (n <? 4)%nat then Answers Sample.db
                           else Answers Sample.quiet_db) Accepts)
              [("fromEmail", VStr "robot@example.org"); ("toEmail", VStr "drift@example.org")]
              (VStr "robot@example.org") (VStr "drift@example.org")
              Sample.db Sample.db Sample.db Sample.db
              Sample.quiet_db Sample.quiet_db Sample.quiet_db Sample.quiet_db
              eq_refl eq_refl eq_refl Hc)
    as (msg & Ho & _ & _ & Hs); [simpl; repeat split | reflexivity |].
  exists msg. split; [exact Ho | exact Hs].
Defined.

(** X20: without the constant [DbConnectionString] nothing is attempted at
    all: a fetch, a report and a mail each raise at once and leave the world
    exactly as it was. *)
Theorem missing_connection_string_stops_everything (A : Type) (self : ReportGenerator)
  (q : query) (h : A) (w : world) :
  ~ has_connection_string (orchestrator_connection self) ->
  fetch_data self q w = (Raise ConfigurationError, w)
  /\ generate_html_report self w = (Raise ConfigurationError, w)
  /\ send_email self h w = (Raise ConfigurationError, w).
Proof.
  intros Hc. split; [now apply fetch_data_unconfigured|].
  split; [now apply generate_html_report_unconfigured|].
  rewrite send_email_eq. now rewrite (generate_html_report_unconfigured self w Hc).
Qed.

Lemma missing_connection_string_stops_everything_witness :
  let self := mkReportGenerator More.bare_oc Sample.settings in
  let w := Sample.world0 (fun _ => Answers Sample.db) Accepts in
  ~ has_connection_string (orchestrator_connection self)
  /\ fetch_data self missed_runs_query w = (Raise ConfigurationError, w)
  /\ generate_html_report self w = (Raise ConfigurationError, w)
  /\ send_email self tt w = (Raise ConfigurationError, w).
Proof.
  cbv zeta.
  assert (Hc : ~ has_connection_string
                 (orchestrator_connection (mkReportGenerator More.bare_oc Sample.settings)))
    by (intros [c H]; discriminate).
  split; [exact Hc|].
  exact (missing_connection_string_stops_everything unit _ missed_runs_query tt _ Hc).
Defined.

(** ** More on the table fragment *)

Lemma cell_in_table (data : list pydict) (row : pydict) (v : value) :
  In row data -> In v (Dict.values row) ->
  Str.contains (data_cell v) (convert_to_html_table data) = true.
Proof.
  intros Hrow Hv. destruct data as [|data0 rest]; [contradiction|].
  rewrite convert_to_html_table_cons.
  apply contains_append_r, contains_append_r, contains_append_r, contains_append_l.
  apply contains_join. exists (body_row row). split; [now apply in_map|].
  unfold body_row. apply contains_append_r, contains_append_l, contains_join.
  exists (data_cell v). split; [now apply in_map | apply contains_self].
Qed.

Lemma header_in_table (data0 : pydict) (rest : list pydict) (k : string) :
  In k (Dict.keys data0) ->
  Str.contains (header_cell k) (convert_to_html_table (data0 :: rest)) = true.
Proof.
  intros Hk. rewrite convert_to_html_table_cons.
  apply contains_append_r, contains_append_l, contains_join.
  exists (header_cell k). split; [now apply in_map | apply contains_self].
Qed.

(** X21: the fragment tells an empty result from a non-empty one: it is the
    placeholder exactly for the empty list, and it holds a table exactly for a
    non-empty one, even when the rows have no columns. *)
Theorem placeholder_iff_empty (data : list pydict) :
  (convert_to_html_table data = no_data_placeholder <-> data = [])
  /\ (Str.contains "<table" (convert_to_html_table data) = true <-> data <> []).
Proof.
  destruct data as [|data0 rest].
  - split; split; try reflexivity; try discriminate. intros H. now elim H.
  - rewrite convert_to_html_table_cons. split; split; try discriminate.
    intros _. apply contains_of_prefix. reflexivity.
Qed.

(** X22: no key and no cell is dropped or altered: every key of the first row
    is in the fragment as a header cell, and every value of every row is in it
    as a data cell holding the text of the value, [None] for a NULL. *)
Theorem table_shows_every_key_and_cell (data0 : pydict) (rest : list pydict)
  (row : pydict) (k : string) (v : value) :
  In k (Dict.keys data0) ->
  In row (data0 :: rest) ->
  In v (Dict.values row) ->
  Str.contains ("<th>" ++ k ++ "</th>") (convert_to_html_table (data0 :: rest)) = true
  /\ Str.contains ("<td>" ++ py_str v ++ "</td>") (convert_to_html_table (data0 :: rest)) = true
  /\ (v = VNone ->
      Str.contains "<td>None</td>" (convert_to_html_table (data0 :: rest)) = true).
Proof.
  intros Hk Hrow Hv. split; [now apply header_in_table|].
  split; [now apply (cell_in_table (data0 :: rest) row v)|].
  intros ->. now apply (cell_in_table (data0 :: rest) row VNone).
Qed.

Lemma table_shows_every_key_and_cell_witness :
  In "c" (Dict.keys [("b", VInt 2); ("c", VNone)])
  /\ In [("b", VInt 2); ("c", VNone)] [[("b", VInt 2); ("c", VNone)]]
  /\ In VNone (Dict.values [("b", VInt 2); ("c", VNone)])
  /\ Str.contains "<th>c</th>" (convert_to_html_table [[("b", VInt 2); ("c", VNone)]]) = true
  /\ Str.contains "<td>None</td>" (convert_to_html_table [[("b", VInt 2); ("c", VNone)]])
     = true.
Proof.
  assert (Hk : In "c" (Dict.keys [("b", VInt 2); ("c", VNone)])) by (simpl; auto).
  assert (Hrow : In [("b", VInt 2); ("c", VNone)] [[("b", VInt 2); ("c", VNone)]])
    by (simpl; auto).
  assert (Hv : In VNone (Dict.values [("b", VInt 2); ("c", VNone)])) by (simpl; auto).
  split; [exact Hk|]. split; [exact Hrow|]. split; [exact Hv|].
  destruct (table_shows_every_key_and_cell _ [] _ "c" VNone Hk Hrow Hv) as (H1 & H2 & _).
  split; [exact H1 | exact H2].
Defined.

(** X23: the report document carries the text of every string cell of each
    of its four result sets as it is: the template puts the fragments in
    without escaping, so markup in a database value reaches the mail body. *)
Theorem report_carries_cells_unescaped (b : ReportBundle) (row : pydict) (k s : string) :
  In row (missed b) \/ In row (overdue b) \/ In row (failed b) \/ In row (status b) ->
  In (k, VStr s) row ->
  Str.contains ("<td>" ++ s ++ "</td>") (rendered b) = true.
Proof.
  intros Hrow Hcell.
  assert (Hv : In (VStr s) (Dict.values row)).
  { unfold Dict.values. change (VStr s) with (snd (k, VStr s)). now apply in_map. }
  unfold rendered, template_render.
  destruct Hrow as [H|[H|[H|H]]].
  - apply contains_append_r, contains_append_l.
    exact (cell_in_table _ row (VStr s) H Hv).
  - do 5 apply contains_append_r. apply contains_append_l.
    exact (cell_in_table _ row (VStr s) H Hv).
  - do 3 apply contains_append_r. apply contains_append_l.
    exact (cell_in_table _ row (VStr s) H Hv).
  - do 7 apply contains_append_r. apply contains_append_l.
    exact (cell_in_table _ row (VStr s) H Hv).
Qed.

Lemma report_carries_cells_unescaped_witness :
  let b := mkBundle [] [] [Sample.markup_row] [] in
  (In Sample.markup_row (missed b) \/ In Sample.markup_row (overdue b)
   \/ In Sample.markup_row (failed b) \/ In Sample.markup_row (status b))
  /\ In ("trigger_name", VStr "<script>alert(1)</script>") Sample.markup_row
  /\ Str.contains ("<td>" ++ "<script>alert(1)</script>" ++ "</td>") (rendered b) = true.
Proof.
  cbv zeta.
  assert (Hrow : In Sample.markup_row (missed (mkBundle [] [] [Sample.markup_row] []))
                 \/ In Sample.markup_row (overdue (mkBundle [] [] [Sample.markup_row] []))
                 \/ In Sample.markup_row (failed (mkBundle [] [] [Sample.markup_row] []))
                 \/ In Sample.markup_row (status (mkBundle [] [] [Sample.markup_row] [])))
    by (right; right; left; simpl; auto).
  assert (Hcell : In ("trigger_name", VStr "<script>alert(1)</script>") Sample.markup_row)
    by (simpl; auto).
  split; [exact Hrow|]. split; [exact Hcell|].
  exact (report_carries_cells_unescaped _ _ _ _ Hrow Hcell).
Defined.
